(** * Content distribution pipeline: the route handler, embedded and verified

    The program is the Next.js route handler of the content pipeline
    (two revisions of the same [route.ts]: the baseline one, which tags with
    [extractHashtags], and the extended one, which adds the engagement
    forecast, the suggestions and [generateOptimizedHashtags]).

    Modelling conventions.
    - A JavaScript string is the list of its UTF-16 code units, so [length],
      [substring], [split] and [includes] count what the program counts.
    - A JavaScript number that holds a count or a score is an integer
      ([nat] for lengths and counters, [Z] for scores); the fractional
      arithmetic (confidence, readability, forecast metrics) is read in exact
      rational arithmetic over [Q], decimal literals included.
    - [Math.random] and the clock are inputs: a record [Env] carries the
      stream of draws and the clock reading, and the draws are threaded by
      explicit state passing in the order the program makes them. *)

From Stdlib Require Import Ascii String.
From Stdlib Require Import List NArith ZArith QArith Qround Qminmax Bool Lia Lqa.
Import ListNotations.

Set Implicit Arguments.
Close Scope Q_scope.

(** ** JavaScript strings as sequences of UTF-16 code units *)

Module JS.

Local Open Scope N_scope.

Definition jsstring := list N.

(** An ASCII literal of the source, as code units. *)
Definition lit (s : string) : jsstring :=
  map N_of_ascii (list_ascii_of_string s).

Definition between (lo hi c : N) : bool := (N.leb lo c && N.leb c hi)%bool.

(** [\w] of a regular expression without the [u] flag. *)
Definition is_word (c : N) : bool :=
  (between 48 57 c || between 65 90 c || N.eqb c 95 || between 97 122 c)%bool.

(** ASCII letters and digits: the spec's "alphanumeric". *)
Definition is_alnum (c : N) : bool :=
  (between 48 57 c || between 65 90 c || between 97 122 c)%bool.

(** [\s], which is also what [trim] removes: WhiteSpace and LineTerminator. *)
Definition is_space (c : N) : bool :=
  (between 9 13 c || N.eqb c 32 || N.eqb c 160 || N.eqb c 5760
   || between 8192 8202 c || N.eqb c 8232 || N.eqb c 8233 || N.eqb c 8239
   || N.eqb c 8287 || N.eqb c 12288 || N.eqb c 65279)%bool.

Fixpoint str_eqb (a b : jsstring) : bool :=
  match a, b with
  | [], [] => true
  | x :: a', y :: b' => (N.eqb x y && str_eqb a' b')%bool
  | _, _ => false
  end.

(** [Array.prototype.includes] on an array of strings. *)
Definition arr_includes (l : list jsstring) (w : jsstring) : bool :=
  existsb (str_eqb w) l.

Fixpoint starts_with (p s : jsstring) : bool :=
  match p, s with
  | [], _ => true
  | x :: p', y :: s' => (N.eqb x y && starts_with p' s')%bool
  | _ :: _, [] => false
  end.

(** [String.prototype.includes]. *)
Fixpoint includes (s p : jsstring) : bool :=
  (starts_with p s || match s with [] => false | _ :: r => includes r p end)%bool.

(** [String.prototype.toLowerCase], one code unit at a time.  Exact on Basic
    Latin and Latin-1 and on the two characters outside ASCII whose lower case
    contains an ASCII letter (U+0130 and the Kelvin sign U+212A); any other
    unit is left as it is.  Such a unit is not a word character before or
    after lowering, so no token of the program depends on its image. *)
Definition lower_unit (c : N) : jsstring :=
  if between 65 90 c then [c + 32]
  else if N.eqb c 304 then [105; 775]
  else if N.eqb c 8490 then [107]
  else if (between 192 222 c && negb (N.eqb c 215))%bool then [c + 32]
  else [c].

Definition toLowerCase (s : jsstring) : jsstring := flat_map lower_unit s.

(** [s.split(/C+/)] for a character class [C]: the pieces between maximal
    runs of separator units, with an empty piece in front when [s] starts
    with a separator and one at the end when it ends with one; the empty
    string gives one empty piece. *)
Fixpoint split_runs (sep : N -> bool) (s : jsstring) : list jsstring :=
  match s with
  | [] => [[]]
  | c :: r =>
      if sep c then
        match r with
        | c' :: _ => if sep c' then split_runs sep r else [] :: split_runs sep r
        | [] => [] :: split_runs sep r
        end
      else
        match split_runs sep r with
        | piece :: rest => (c :: piece) :: rest
        | [] => [[c]]
        end
  end.

(** [s.split(",")]-style split on a one-unit separator string. *)
Fixpoint split_on (d : N) (s : jsstring) : list jsstring :=
  match s with
  | [] => [[]]
  | c :: r =>
      if N.eqb c d then [] :: split_on d r
      else
        match split_on d r with
        | piece :: rest => (c :: piece) :: rest
        | [] => [[c]]
        end
  end.

(** [s.substring(0, n)]. *)
Definition substring0 (n : nat) (s : jsstring) : jsstring := firstn n s.

(** [String.prototype.trim]: white space removed at both ends. *)
Fixpoint trim_start (s : jsstring) : jsstring :=
  match s with
  | c :: r => if is_space c then trim_start r else s
  | [] => []
  end.

Definition trim (s : jsstring) : jsstring := rev (trim_start (rev (trim_start s))).

(** [s.trim().length === 0]. *)
Definition is_blank (s : jsstring) : bool := Nat.eqb (length (trim s)) 0.

(** [a.slice(0, e)] on an array, for any integer [e]: a negative end counts
    from the end of the array. *)
Definition slice0 (A : Type) (e : Z) (l : list A) : list A :=
  if (e <? 0)%Z then firstn (Z.to_nat (Z.of_nat (length l) + e)) l
  else firstn (Z.to_nat e) l.

(** [[...new Set(l)]]: the distinct elements in order of first occurrence. *)
Definition set_add (seen : list jsstring) (x : jsstring) : list jsstring :=
  if arr_includes seen x then seen else seen ++ [x].

Definition set_of (l : list jsstring) : list jsstring :=
  fold_left set_add l [].

(** Case-insensitive comparison of a regular expression without the [u] flag
    against an ASCII pattern: only ASCII letters fold. *)
Definition fold_ascii (c : N) : N := if between 65 90 c then c + 32 else c.

Fixpoint starts_with_ci (p s : jsstring) : bool :=
  match p, s with
  | [], _ => true
  | x :: p', y :: s' => (N.eqb (fold_ascii x) (fold_ascii y) && starts_with_ci p' s')%bool
  | _ :: _, [] => false
  end.

(** [\b] between the unit before the position (if any) and the unit at it. *)
Definition opt_word (c : option N) : bool :=
  match c with Some x => is_word x | None => false end.

Definition boundary (before after : option N) : bool :=
  xorb (opt_word before) (opt_word after).

Definition last_or (d : option N) (w : jsstring) : option N :=
  match rev w with x :: _ => Some x | [] => d end.

(** One alternative [w] of [/\b(w1|w2|...)\b/i] tried at a position: [prev]
    is the unit before the position and [s] the text from it. *)
Definition alt_matches (prev : option N) (s w : jsstring) : bool :=
  (boundary prev (hd_error s) && starts_with_ci w s
   && boundary (last_or prev (firstn (length w) s)) (hd_error (skipn (length w) s)))%bool.

Definition first_alt (alts : list jsstring) (prev : option N) (s : jsstring)
  : option jsstring :=
  find (alt_matches prev s) alts.

(** [/\b(w1|w2|...)\b/i.test(s)]. *)
Fixpoint test_words (alts : list jsstring) (prev : option N) (s : jsstring) : bool :=
  match first_alt alts prev s with
  | Some _ => true
  | None => match s with [] => false | c :: r => test_words alts (Some c) r end
  end.

(** [s.replace(/\b(w1|w2|...)\b/gi, repl)] for non-empty alternatives:
    [skip] counts the units of the current match that are still to be
    consumed. *)
Fixpoint replace_words (alts : list jsstring) (repl : jsstring)
    (prev : option N) (skip : nat) (s : jsstring) : jsstring :=
  match s with
  | [] => []
  | c :: r =>
      match skip with
      | S k => replace_words alts repl (Some c) k r
      | O =>
          match first_alt alts prev s with
          | Some w => repl ++ replace_words alts repl (Some c) (pred (length w)) r
          | None => c :: replace_words alts repl (Some c) 0 r
          end
      end
  end.

(** [s.replace(/!/g, ".")]-style replacement of one unit by another. *)
Definition replace_unit (a b : N) (s : jsstring) : jsstring :=
  map (fun c => if N.eqb c a then b else c) s.

(** [s.replace(/\.$/, "!")]-style replacement of a final unit. *)
Fixpoint replace_final (a b : N) (s : jsstring) : jsstring :=
  match s with
  | [] => []
  | [c] => if N.eqb c a then [b] else [c]
  | c :: r => c :: replace_final a b r
  end.

(** A regular expression with the [u] flag reads a high surrogate followed by
    a low one as one code point. *)
Definition is_high (c : N) : bool := between 55296 56319 c.
Definition is_low (c : N) : bool := between 56320 57343 c.
Definition code_point (h l : N) : N := 65536 + (h - 55296) * 1024 + (l - 56320).

(** [Math.round]: the nearest integer, halves upwards. *)
Definition round (x : Q) : Z := Qfloor (x + (1 # 2))%Q.

End JS.

(** ** The analysers and the adapter (the same text in both revisions) *)

Module Pipeline.

Import JS.

(** The three values the handler passes as [platform]; the [default:] arms
    and the [|| []] fallbacks of the source are for other strings and are
    not reachable from it. *)
Inductive Platform := Twitter | LinkedIn | Newsletter.

Inductive Label := positive | negative | neutral.

Record Sentiment := { label : Label; confidence : Q }.

Definition positiveWords : list jsstring :=
  map lit ["good"; "great"; "excellent"; "amazing"; "wonderful"; "fantastic";
           "love"; "best"; "awesome"; "perfect"; "happy"; "excited";
           "thrilled"; "delighted"]%string.

Definition negativeWords : list jsstring :=
  map lit ["bad"; "terrible"; "awful"; "horrible"; "hate"; "worst";
           "disappointed"; "frustrated"; "angry"; "sad"; "difficult";
           "problem"; "issue"; "failed"]%string.

Definition non_word (c : N) : bool := negb (is_word c).

(** [text.toLowerCase().split(/\W+/)] *)
Definition tokens (text : jsstring) : list jsstring :=
  split_runs non_word (toLowerCase text).

(** The body of the [forEach] loop: the two counters after one more word. *)
Definition count_word (counts : nat * nat) (word : jsstring) : nat * nat :=
  let (positiveCount, negativeCount) := counts in
  (if arr_includes positiveWords word then S positiveCount else positiveCount,
   if arr_includes negativeWords word then S negativeCount else negativeCount).

Definition ratio (a b : nat) : Q :=
  (inject_Z (Z.of_nat a) / inject_Z (Z.of_nat b))%Q.

Definition analyzeSentiment (text : jsstring) : Sentiment :=
  let words := tokens text in
  let (positiveCount, negativeCount) := fold_left count_word words (0, 0) in
  let total := positiveCount + negativeCount in
  if total =? 0 then {| label := neutral; confidence := 5 # 10 |}
  else if negativeCount <? positiveCount then
    {| label := positive;
       confidence := Qmin (95 # 100) ((6 # 10) + ratio positiveCount total * (4 # 10))%Q |}
  else if positiveCount <? negativeCount then
    {| label := negative;
       confidence := Qmin (95 # 100) ((6 # 10) + ratio negativeCount total * (4 # 10))%Q |}
  else {| label := neutral; confidence := 7 # 10 |}.

(** *** Baseline hashtags *)

Definition commonHashtags (platform : Platform) : list jsstring :=
  match platform with
  | Twitter =>
      map lit ["#tech"; "#innovation"; "#business"; "#startup"; "#ai"; "#productivity"]%string
  | LinkedIn =>
      map lit ["#professional"; "#business"; "#leadership"; "#growth"; "#innovation";
               "#networking"]%string
  | Newsletter => []
  end.

(** [content.toLowerCase().split(/\W+/).filter((word) => word.length > 3)] *)
Definition long_words (content : jsstring) : list jsstring :=
  filter (fun word => 3 <? length word) (tokens content).

Definition push_if (A : Type) (b : bool) (items l : list A) : list A :=
  if b then l ++ items else l.

(** The tags pushed by the four keyword tests, in the order of the pushes. *)
Definition contentTags (words : list jsstring) : list jsstring :=
  let hashtags := [] in
  let hashtags :=
    push_if (arr_includes words (lit "technology") || arr_includes words (lit "tech"))
            [lit "#technology"] hashtags in
  let hashtags := push_if (arr_includes words (lit "business")) [lit "#business"] hashtags in
  let hashtags := push_if (arr_includes words (lit "innovation")) [lit "#innovation"] hashtags in
  push_if (arr_includes words (lit "ai") || arr_includes words (lit "artificial"))
          [lit "#ai"] hashtags.

Definition extractHashtags (content : jsstring) (platform : Platform) : list jsstring :=
  let words := long_words content in
  let hashtags := contentTags words in
  let platformTags := commonHashtags platform in
  let hashtags := hashtags ++ slice0 (3 - Z.of_nat (length hashtags)) platformTags in
  slice0 5 hashtags.

(** *** Readability *)

Definition is_sentence_end (c : N) : bool :=
  (N.eqb c 46 || N.eqb c 33 || N.eqb c 63)%bool.

Definition is_vowel (c : N) : bool :=
  (N.eqb c 97 || N.eqb c 101 || N.eqb c 105 || N.eqb c 111 || N.eqb c 117
   || N.eqb c 121)%bool.

(** The number of matches of [/[aeiouy]+/g]: the maximal runs of vowels. *)
Fixpoint vowel_runs (in_run : bool) (s : jsstring) : nat :=
  match s with
  | [] => 0
  | c :: r =>
      if is_vowel c then (if in_run then 0 else 1) + vowel_runs true r
      else vowel_runs false r
  end.

(** [Math.max(1, word.toLowerCase().match(/[aeiouy]+/g)?.length || 1)] *)
Definition word_syllables (word : jsstring) : nat :=
  let matches := vowel_runs false (toLowerCase word) in
  Nat.max 1 (if matches =? 0 then 1 else matches).

Definition sentence_count (text : jsstring) : nat :=
  length (filter (fun s => negb (is_blank s)) (split_runs is_sentence_end text)).

Definition word_count (text : jsstring) : nat :=
  length (filter (fun w => 0 <? length w) (split_runs is_space text)).

Definition syllable_count (text : jsstring) : nat :=
  fold_left (fun count word => count + word_syllables word) (split_runs is_space text) 0.

Definition readability_formula (sentences words syllables : nat) : Q :=
  let avgSentenceLength := ratio words sentences in
  let avgSyllablesPerWord := ratio syllables words in
  ((206835 # 1000) - (1015 # 1000) * avgSentenceLength
   - (846 # 10) * avgSyllablesPerWord)%Q.

Definition calculateReadability (text : jsstring) : Z :=
  let sentences := sentence_count text in
  let words := word_count text in
  let syllables := syllable_count text in
  if ((sentences =? 0) || (words =? 0))%bool then 50%Z
  else
    let score := readability_formula sentences words syllables in
    Z.max 0 (Z.min 100 (round score)).

(** *** Channel adapter *)

Definition maxLengths (platform : Platform) : nat :=
  match platform with
  | Twitter => 280
  | LinkedIn => 3000
  | Newsletter => 5000
  end.

Definition nl : jsstring := [10%N].

(** The tone [switch]; a missing or empty tone is falsy and skips it. *)
Definition applyTone (tone : option jsstring) (adaptedContent : jsstring) : jsstring :=
  match tone with
  | None => adaptedContent
  | Some [] => adaptedContent
  | Some t =>
      let t := toLowerCase t in
      if str_eqb t (lit "professional") then
        replace_words (map lit ["awesome"; "amazing"; "cool"]%string) (lit "excellent")
                      None 0 (replace_unit 33 46 adaptedContent)
      else if str_eqb t (lit "casual") then
        replace_words (map lit ["excellent"; "outstanding"]%string) (lit "awesome")
                      None 0 adaptedContent
      else if str_eqb t (lit "enthusiastic") then
        if negb (includes adaptedContent (lit "!"))
        then replace_final 46 33 adaptedContent
        else adaptedContent
      else adaptedContent
  end.

Definition ellipsis : jsstring := lit "...".

Definition engagement_prompt : jsstring := lit " What do you think?".

Definition adaptTwitter (adaptedContent : jsstring) : jsstring :=
  let adaptedContent :=
    if 240 <? length adaptedContent
    then substring0 240 adaptedContent ++ ellipsis
    else adaptedContent in
  if length adaptedContent <? 200
  then adaptedContent ++ engagement_prompt
  else adaptedContent.

Definition adaptLinkedIn (adaptedContent : jsstring) : jsstring :=
  let adaptedContent :=
    if (negb (includes adaptedContent (lit "professional"))
        && negb (includes adaptedContent (lit "business")))%bool
    then lit "In today's business landscape, " ++ toLowerCase adaptedContent
    else adaptedContent in
  adaptedContent ++ nl ++ nl
    ++ lit "What has been your experience with this? Share your thoughts in the comments.".

Definition adaptNewsletter (adaptedContent : jsstring) : jsstring :=
  lit "Dear Subscribers," ++ nl ++ nl ++ adaptedContent ++ nl ++ nl
    ++ lit "Thank you for reading, and we look forward to sharing more insights with you soon."
    ++ nl ++ nl ++ lit "Best regards," ++ nl ++ lit "The Team".

Definition adaptForPlatform (content : jsstring) (platform : Platform)
    (audience tone : option jsstring) : jsstring :=
  let adaptedContent := applyTone tone content in
  match platform with
  | Twitter => adaptTwitter adaptedContent
  | LinkedIn => adaptLinkedIn adaptedContent
  | Newsletter => adaptNewsletter adaptedContent
  end.

(** [content.split(".")[0].substring(0, 50) + (content.length > 50 ? "..." : "")] *)
Definition subjectLine (content : jsstring) : jsstring :=
  substring0 50 (nth 0 (split_on 46 content) [])
    ++ (if 50 <? length content then lit "..." else lit "").

(** The request body and the responses of the handler. *)
Record ContentRequest := {
  content : option jsstring;
  target_audience : option jsstring;
  tone : option jsstring
}.

(** The guard [!body.content || body.content.trim().length === 0]: the
    text the handler goes on with, if it does. *)
Definition validated (body : ContentRequest) : option jsstring :=
  match content body with
  | None => None
  | Some [] => None
  | Some c => if is_blank c then None else Some c
  end.

(** [NextResponse.json(result)] and [NextResponse.json({ error }, { status })]. *)
Inductive Response (R : Type) :=
  | Ok (result : R)
  | Error (status : nat) (error : jsstring).

Arguments Ok {R} result.
Arguments Error {R} status error.

(** The frame both revisions of [POST] share: parse, guard, run the analysis
    [analyse] on the validated text, answer.  [body] is [None] when
    [request.json()] rejects, which the [catch] answers. *)
Definition respond (R : Type)
    (analyse : jsstring -> option jsstring -> option jsstring -> R)
    (body : option ContentRequest) : Response R :=
  match body with
  | None => Error 500 (lit "Internal server error")
  | Some body =>
      match validated body with
      | None => Error 400 (lit "Content is required")
      | Some content => Ok (analyse content (target_audience body) (tone body))
      end
  end.

Record SocialVariant := {
  sv_content : jsstring;
  sv_hashtags : list jsstring;
  sv_character_count : nat;
  sv_optimized_content : option jsstring
}.

Record NewsletterVariant := {
  nv_content : jsstring;
  nv_subject_line : jsstring;
  nv_word_count : nat;
  nv_optimized_subject : option jsstring
}.

Record Platforms := {
  twitter : SocialVariant;
  linkedin : SocialVariant;
  newsletter : NewsletterVariant
}.

Record Metadata := {
  processing_time : Z;
  content_type : jsstring;
  language : jsstring;
  readability_score : Z
}.

Definition contentType (content : jsstring) : jsstring :=
  if 500 <? length content then lit "long-form" else lit "short-form".

(** What the handler reads from outside: the parsed clock ([getHours],
    [getDay]), the draws of [Math.random] in the order they are made, and
    the milliseconds between the two readings of [Date.now]. *)
Record Env := {
  currentHour : Z;
  dayOfWeek : Z;
  random : nat -> Q;
  elapsed : Z
}.

End Pipeline.

(** ** The baseline revision of the handler *)

Module RouteV1.

Import JS Pipeline.

Record ProcessedContent := {
  original_content : jsstring;
  sentiment : Sentiment;
  platforms : Platforms;
  metadata : Metadata
}.

Definition process (env : Env) (content : jsstring)
    (target_audience tone : option jsstring) : ProcessedContent :=
  let sentiment := analyzeSentiment content in
  let twitterContent := adaptForPlatform content Twitter target_audience tone in
  let linkedinContent := adaptForPlatform content LinkedIn target_audience tone in
  let newsletterContent := adaptForPlatform content Newsletter target_audience tone in
  let subjectLine := subjectLine content in
  {| original_content := content;
     sentiment := sentiment;
     platforms :=
       {| twitter :=
            {| sv_content := twitterContent;
               sv_hashtags := extractHashtags content Twitter;
               sv_character_count := length twitterContent;
               sv_optimized_content := None |};
          linkedin :=
            {| sv_content := linkedinContent;
               sv_hashtags := extractHashtags content LinkedIn;
               sv_character_count := length linkedinContent;
               sv_optimized_content := None |};
          newsletter :=
            {| nv_content := newsletterContent;
               nv_subject_line := subjectLine;
               nv_word_count := length (split_runs is_space newsletterContent);
               nv_optimized_subject := None |} |};
     metadata :=
       {| processing_time := elapsed env;
          content_type := contentType content;
          language := lit "en";
          readability_score := calculateReadability content |} |}.

Definition POST (env : Env) (body : option ContentRequest) : Response ProcessedContent :=
  respond (process env) body.

End RouteV1.

(** ** The extended revision: forecast, suggestions, optimized variants *)

Module RouteV2.

Import JS Pipeline.

Inductive Forecast :=
  | TwitterForecast (predicted_likes predicted_retweets predicted_replies : Z)
      (engagement_score : Z) (optimal_posting_time : jsstring)
  | LinkedInForecast (predicted_likes predicted_shares predicted_comments : Z)
      (engagement_score : Z) (optimal_posting_time : jsstring)
  | NewsletterForecast (predicted_open_rate predicted_click_rate : Q)
      (engagement_score : Z) (optimal_send_time : jsstring).

Definition engagement_score (f : Forecast) : Z :=
  match f with
  | TwitterForecast _ _ _ s _ => s
  | LinkedInForecast _ _ _ s _ => s
  | NewsletterForecast _ _ s _ => s
  end.

Definition getOptimalPostingTime (env : Env) (platform : Platform) : jsstring :=
  let currentHour := currentHour env in
  match platform with
  | Twitter =>
      if (currentHour <? 9)%Z then lit "9:00 AM today"
      else if (currentHour <? 13)%Z then lit "1:00 PM today"
      else if (currentHour <? 17)%Z then lit "5:00 PM today"
      else lit "9:00 AM tomorrow"
  | LinkedIn =>
      if (currentHour <? 8)%Z then lit "8:00 AM today"
      else if (currentHour <? 12)%Z then lit "12:00 PM today"
      else if (currentHour <? 17)%Z then lit "5:00 PM today"
      else lit "8:00 AM tomorrow"
  | Newsletter =>
      let dayOfWeek := dayOfWeek env in
      if ((2 <=? dayOfWeek) && (dayOfWeek <=? 4))%Z%bool then
        if (currentHour <? 10)%Z then lit "10:00 AM today"
        else if (currentHour <? 14)%Z then lit "2:00 PM today"
        else lit "10:00 AM tomorrow"
      else lit "Tuesday 10:00 AM"
  end.

(** The test of the [u]-flagged emoji class: some code point of the text lies
    in one of the four astral ranges.  A high surrogate followed by a low one
    is always read as a pair, so looking at adjacent units finds them all. *)
Definition emoji_point (p : N) : bool :=
  (between 128512 128591 p || between 127744 128511 p || between 128640 128767 p
   || between 127456 127487 p)%bool.

Fixpoint hasEmojis (s : jsstring) : bool :=
  match s with
  | h :: r =>
      (match r with
       | l :: _ => is_high h && is_low l && emoji_point (code_point h l)
       | [] => false
       end || hasEmojis r)%bool
  | [] => false
  end.

Definition callToAction : list jsstring :=
  map lit ["share"; "comment"; "like"; "follow"; "subscribe"; "click"; "learn more";
           "read more"]%string.

Definition bonus (b : bool) (points : Z) : Z := if b then points else 0%Z.

(** [baseScore] after the sentiment and content-feature bonuses. *)
Definition featureScore (content : jsstring) (sentiment : Sentiment) : Z :=
  let hasHashtags := includes content (lit "#") in
  let hasEmojis := hasEmojis content in
  let hasQuestions := includes content (lit "?") in
  let hasCallToAction := test_words callToAction None content in
  let baseScore := 50%Z in
  let baseScore :=
    match label sentiment with
    | positive => baseScore + 15
    | negative => baseScore + 5
    | neutral => baseScore
    end%Z in
  (baseScore + bonus hasHashtags 10 + bonus hasEmojis 8 + bonus hasQuestions 12
   + bonus hasCallToAction 15)%Z.

(** [baseScore] at the [return] of each arm of the platform [switch]. *)
Definition platformScore (content : jsstring) (platform : Platform)
    (sentiment : Sentiment) : Z :=
  let contentLength := length content in
  let wordCount := length (split_runs is_space content) in
  let baseScore := featureScore content sentiment in
  match platform with
  | Twitter =>
      if ((71 <=? contentLength) && (contentLength <=? 100))%bool then (baseScore + 10)%Z
      else if 280 <? contentLength then (baseScore - 20)%Z
      else baseScore
  | LinkedIn =>
      let baseScore :=
        if ((50 <=? wordCount) && (wordCount <=? 200))%bool then (baseScore + 15)%Z
        else baseScore in
      if (includes content (lit "professional") || includes content (lit "business"))%bool
      then (baseScore + 10)%Z else baseScore
  | Newsletter =>
      let subjectScore :=
        if length (nth 0 (split_on 46 content) []) <=? 50 then 10%Z else (-5)%Z in
      (baseScore + subjectScore)%Z
  end.

(** [Math.round(baseScore * m + Math.random() * j)] with the draw [r]. *)
Definition metric (baseScore : Z) (m : Q) (r : Q) (j : Q) : Z :=
  round (inject_Z baseScore * m + r * j)%Q.

(** The forecast and the number of draws made, from draw number [i] on. *)
Definition predictEngagement (env : Env) (content : jsstring) (platform : Platform)
    (sentiment : Sentiment) (i : nat) : Forecast * nat :=
  let baseScore := platformScore content platform sentiment in
  match platform with
  | Twitter =>
      (TwitterForecast
         (metric baseScore (23 # 10) (random env i) 20)
         (metric baseScore (8 # 10) (random env (i + 1)) 10)
         (metric baseScore (5 # 10) (random env (i + 2)) 8)
         (Z.min 100 baseScore)
         (getOptimalPostingTime env Twitter), i + 3)
  | LinkedIn =>
      (LinkedInForecast
         (metric baseScore (18 # 10) (random env i) 15)
         (metric baseScore (6 # 10) (random env (i + 1)) 8)
         (metric baseScore (9 # 10) (random env (i + 2)) 12)
         (Z.min 100 baseScore)
         (getOptimalPostingTime env LinkedIn), i + 3)
  | Newsletter =>
      (NewsletterForecast
         (Qmin 45 (Qmax 15 (inject_Z baseScore * (6 # 10))))
         (Qmin 15 (Qmax 2 (inject_Z baseScore * (2 # 10))))
         (Z.min 100 baseScore)
         (getOptimalPostingTime env Newsletter), i)
  end.

(** *** Optimized hashtags *)

Definition trendingHashtags (platform : Platform) : list jsstring :=
  match platform with
  | Twitter =>
      map lit ["#AI"; "#Tech"; "#Innovation"; "#Startup"; "#Growth"; "#Digital"; "#Future";
               "#Success"]%string
  | LinkedIn =>
      map lit ["#Leadership"; "#Professional"; "#Business"; "#Career"; "#Networking";
               "#Industry"; "#Strategy"; "#Growth"]%string
  | Newsletter => []
  end.

(** [words.some((w) => cluster.includes(w))] *)
Definition some_in (cluster words : list jsstring) : bool :=
  existsb (arr_includes cluster) words.

Definition contentBasedTags (words : list jsstring) : list jsstring :=
  let tags := [] in
  let tags :=
    push_if (some_in (map lit ["ai"; "artificial"; "intelligence"; "machine"; "learning"]%string)
                     words)
            (map lit ["#AI"; "#MachineLearning"; "#Technology"]%string) tags in
  let tags :=
    push_if (some_in (map lit ["business"; "startup"; "entrepreneur"; "company"]%string) words)
            (map lit ["#Business"; "#Startup"; "#Entrepreneur"]%string) tags in
  push_if (some_in (map lit ["marketing"; "brand"; "social"; "content"]%string) words)
          (map lit ["#Marketing"; "#Branding"; "#ContentMarketing"]%string) tags.

Definition generateOptimizedHashtags (content : jsstring) (platform : Platform)
  : list jsstring :=
  let words := long_words content in
  let contentBasedTags := contentBasedTags words in
  let platformTags := trendingHashtags platform in
  let allTags := set_of (contentBasedTags ++ platformTags) in
  slice0 5 allTags.

(** *** Suggestions *)

Record Suggestions := {
  hashtag_recommendations : list jsstring;
  keyword_suggestions : list jsstring;
  tone_adjustments : list jsstring;
  timing_recommendations : list jsstring
}.

Definition powerWords : list jsstring :=
  map lit ["amazing"; "incredible"; "breakthrough"; "innovative"; "revolutionary"]%string.

Definition quoted (s : string) : jsstring := [34%N] ++ lit s ++ [34%N].

Definition Qltb (a b : Q) : bool := negb (Qle_bool b a).

(** [platforms] (the three adapted texts) is received and not read. *)
Definition generateOptimizationSuggestions (content : jsstring) (sentiment : Sentiment)
    (platforms : jsstring * jsstring * jsstring) : Suggestions :=
  let hasKeywords := test_words powerWords None content in
  let keyword_suggestions :=
    push_if (negb hasKeywords)
      [lit "Add power words like " ++ quoted "amazing" ++ lit ", " ++ quoted "breakthrough"
         ++ lit ", or " ++ quoted "innovative"] [] in
  let keyword_suggestions :=
    push_if (negb (includes content (lit "?")))
      [lit "Consider adding a question to increase engagement"] keyword_suggestions in
  let tone_adjustments :=
    push_if (match label sentiment with neutral => true | _ => false end)
      [lit "Consider adding more emotional language to increase engagement"] [] in
  let tone_adjustments :=
    push_if (Qltb (confidence sentiment) (7 # 10))
      [lit "Clarify the tone to make the message more impactful"] tone_adjustments in
  {| hashtag_recommendations :=
       map lit ["Add trending hashtags for better discoverability";
                "Use platform-specific hashtags";
                "Include branded hashtags if applicable";
                "Mix popular and niche hashtags"]%string;
     keyword_suggestions := keyword_suggestions;
     tone_adjustments := tone_adjustments;
     timing_recommendations :=
       map lit ["Post during peak hours for your audience";
                "Consider time zones of your target audience";
                "Use scheduling tools for optimal timing";
                "Test different posting times to find what works best"]%string |}.

(** *** Optimized variants *)

Definition questions : list jsstring :=
  map lit ["What do you think?"; "Have you experienced this?"; "What's your take on this?";
           "Do you agree?"]%string.

(** [String(a[k])] for an integer [k]: an index outside the array reads
    [undefined]. *)
Definition index_text (a : list jsstring) (k : Z) : jsstring :=
  if (k <? 0)%Z then lit "undefined" else nth (Z.to_nat k) a (lit "undefined").

Definition is_newsletter (platform : Platform) : bool :=
  match platform with Newsletter => true | _ => false end.

(** The optimized text and the number of the next draw. *)
Definition optimizeContentForEngagement (env : Env) (content : jsstring)
    (platform : Platform) (sentiment : Sentiment) (i : nat) : jsstring * nat :=
  let (optimizedContent, i) :=
    if (negb (includes content (lit "?")) && negb (is_newsletter platform))%bool
    then (content ++ lit " " ++ index_text questions (Qfloor (random env i * 4)%Q), i + 1)
    else (content, i) in
  match platform with
  | Twitter =>
      (if negb (includes optimizedContent (lit "#"))
       then optimizedContent ++ lit " #Innovation" else optimizedContent, i)
  | LinkedIn =>
      (if (negb (includes optimizedContent (lit "share"))
           && negb (includes optimizedContent (lit "comment")))%bool
       then optimizedContent ++ nl ++ nl ++ lit "Share your thoughts in the comments below!"
       else optimizedContent, i)
  | Newsletter =>
      let words := split_on 32 content in
      (if 8 <? length words
       then substring0 47 (nth 0 (split_on 46 content) []) ++ lit "..."
       else optimizedContent, i)
  end.

(** *** The handler *)

Record EngagementForecast := {
  forecast_twitter : Forecast;
  forecast_linkedin : Forecast;
  forecast_newsletter : Forecast
}.

Record ProcessedContent := {
  original_content : jsstring;
  sentiment : Sentiment;
  engagement_forecast : EngagementForecast;
  optimization_suggestions : Suggestions;
  platforms : Platforms;
  metadata : Metadata
}.

Definition process (env : Env) (content : jsstring)
    (target_audience tone : option jsstring) : ProcessedContent :=
  let sentiment := analyzeSentiment content in
  let (twitterForecast, i) := predictEngagement env content Twitter sentiment 0 in
  let (linkedinForecast, i) := predictEngagement env content LinkedIn sentiment i in
  let (newsletterForecast, i) := predictEngagement env content Newsletter sentiment i in
  let twitterContent := adaptForPlatform content Twitter target_audience tone in
  let linkedinContent := adaptForPlatform content LinkedIn target_audience tone in
  let newsletterContent := adaptForPlatform content Newsletter target_audience tone in
  let (optimizedTwitter, i) :=
    optimizeContentForEngagement env twitterContent Twitter sentiment i in
  let (optimizedLinkedIn, i) :=
    optimizeContentForEngagement env linkedinContent LinkedIn sentiment i in
  let (optimizedNewsletterSubject, i) :=
    optimizeContentForEngagement env content Newsletter sentiment i in
  let optimizationSuggestions :=
    generateOptimizationSuggestions content sentiment
      (twitterContent, linkedinContent, newsletterContent) in
  let subjectLine := subjectLine content in
  {| original_content := content;
     sentiment := sentiment;
     engagement_forecast :=
       {| forecast_twitter := twitterForecast;
          forecast_linkedin := linkedinForecast;
          forecast_newsletter := newsletterForecast |};
     optimization_suggestions := optimizationSuggestions;
     platforms :=
       {| twitter :=
            {| sv_content := twitterContent;
               sv_hashtags := generateOptimizedHashtags content Twitter;
               sv_character_count := length twitterContent;
               sv_optimized_content := Some optimizedTwitter |};
          linkedin :=
            {| sv_content := linkedinContent;
               sv_hashtags := generateOptimizedHashtags content LinkedIn;
               sv_character_count := length linkedinContent;
               sv_optimized_content := Some optimizedLinkedIn |};
          newsletter :=
            {| nv_content := newsletterContent;
               nv_subject_line := subjectLine;
               nv_word_count := length (split_runs is_space newsletterContent);
               nv_optimized_subject := Some optimizedNewsletterSubject |} |};
     metadata :=
       {| processing_time := elapsed env;
          content_type := contentType content;
          language := lit "en";
          readability_score := calculateReadability content |} |}.

Definition POST (env : Env) (body : option ContentRequest) : Response ProcessedContent :=
  respond (process env) body.

End RouteV2.

(** ** The form that calls the handler *)

Module Client.

Import JS Pipeline.

(** [handleProcess] of the page component, up to the [fetch]: nothing is sent
    when [!content.trim()]; otherwise the body carries the three fields of
    the form state, each one a string (the empty string when untouched).  The
    body travels as JSON, which gives the strings back as they were. *)
Definition handleProcess (content targetAudience tone : jsstring)
  : option ContentRequest :=
  if Nat.eqb (length (trim content)) 0 then None
  else Some {| Pipeline.content := Some content;
               target_audience := Some targetAudience;
               Pipeline.tone := Some tone |}.

End Client.

(** ** Tests on texts used to state properties *)

Module Tests.

Import JS.

(** The text has no exclamation mark. *)
Definition calm (s : jsstring) : bool := forallb (fun u => negb (N.eqb u 33)) s.

(** The two texts differ at most in the case of ASCII letters. *)
Definition same_up_to_case (s t : jsstring) : Prop := map fold_ascii s = map fold_ascii t.

(** The number of space units (U+0020) of a text. *)
Definition spaces (s : jsstring) : nat := length (filter (fun u => N.eqb u 32) s).

End Tests.

(** ** The specification's wording, for comparison with the code *)

Module Spec.

Import JS Pipeline.

(** The number of tokens that are in a lexicon. *)
Definition hits (lexicon words : list jsstring) : nat :=
  length (filter (arr_includes lexicon) words).

(** The four-case policy on the two counts. *)
Definition four_case (pos neg : nat) : Sentiment :=
  if (pos + neg =? 0) then {| label := neutral; confidence := 5 # 10 |}
  else if neg <? pos then
    {| label := positive;
       confidence := Qmin (95 # 100) ((6 # 10) + ratio pos (pos + neg) * (4 # 10))%Q |}
  else if pos <? neg then
    {| label := negative;
       confidence := Qmin (95 # 100) ((6 # 10) + ratio neg (pos + neg) * (4 # 10))%Q |}
  else {| label := neutral; confidence := 7 # 10 |}.

(** Tokens split on non-alphanumeric boundaries, as the specification words
    it: every unit that is not a letter or a digit separates. *)
Definition alnum_tokens (text : jsstring) : list jsstring :=
  split_runs (fun c => negb (is_alnum c)) (toLowerCase text).

Definition classify_on_alnum_tokens (text : jsstring) : Sentiment :=
  four_case (hits positiveWords (alnum_tokens text)) (hits negativeWords (alnum_tokens text)).

(** The first ['.']-delimited segment of a text. *)
Fixpoint first_segment (s : jsstring) : jsstring :=
  match s with
  | [] => []
  | c :: r => if N.eqb c 46 then [] else c :: first_segment r
  end.

(** Readability as the specification states it for a one-fragment text. *)
Definition single_fragment_scores_50 (text : jsstring) : Prop :=
  sentence_count text = 1 -> calculateReadability text = 50%Z.

(** Baseline tags as the specification states them: channel tags fill the
    slots left by the content-based tags up to five. *)
Definition fills_up_to_five (text : jsstring) (platform : Platform) : Prop :=
  length (contentTags (long_words text)) < 5 ->
  extractHashtags text platform
  = firstn 5 (contentTags (long_words text) ++ commonHashtags platform).

(** The draw at which the handler starts the forecast of a platform. *)
Definition first_draw (platform : Platform) : nat :=
  match platform with
  | Twitter => 0
  | LinkedIn => 3
  | Newsletter => 6
  end.

Definition forecast_of (platform : Platform) (r : RouteV2.ProcessedContent)
  : RouteV2.Forecast :=
  match platform with
  | Twitter => RouteV2.forecast_twitter (RouteV2.engagement_forecast r)
  | LinkedIn => RouteV2.forecast_linkedin (RouteV2.engagement_forecast r)
  | Newsletter => RouteV2.forecast_newsletter (RouteV2.engagement_forecast r)
  end.

Definition adapted_of (platform : Platform) (r : RouteV2.ProcessedContent) : jsstring :=
  match platform with
  | Twitter => sv_content (twitter (RouteV2.platforms r))
  | LinkedIn => sv_content (linkedin (RouteV2.platforms r))
  | Newsletter => nv_content (newsletter (RouteV2.platforms r))
  end.

(** The forecast of every channel computed from that channel's adapted text,
    as the specification states it. *)
Definition forecast_from_adapted (env : Env) (body : ContentRequest) : Prop :=
  forall r platform,
    RouteV2.POST env (Some body) = Ok r ->
    forecast_of platform r
    = fst (RouteV2.predictEngagement env (adapted_of platform r) platform
             (RouteV2.sentiment r) (first_draw platform)).

(** A text that is missing or made of white space only. *)
Definition missing_or_blank (body : ContentRequest) : Prop :=
  content body = None
  \/ exists c, content body = Some c /\ Forall (fun u => is_space u = true) c.

End Spec.

(** ** Sample inputs *)

Module Samples.

Import JS Pipeline.

Definition request (text : string) (tone : option string) : ContentRequest :=
  {| content := Some (lit text); target_audience := None; tone := option_map lit tone |}.

(** Wednesday, ten o'clock; every draw is one half. *)
Definition env : Env :=
  {| currentHour := 10; dayOfWeek := 3; random := fun _ => (1 # 2)%Q; elapsed := 4 |}.

End Samples.

(** * Properties *)

(** ** Strings and arrays *)

Module JSFacts.

Import JS.

Lemma str_eqb_eq (a b : jsstring) : str_eqb a b = true <-> a = b.
Proof.
  revert b; induction a as [|x a IH]; intros [|y b]; simpl; split;
    try discriminate; try reflexivity.
  - intros H. apply andb_true_iff in H as [Hx Hr].
    apply N.eqb_eq in Hx. apply IH in Hr. now subst.
  - intros H. injection H as -> ->. rewrite N.eqb_refl. simpl. now apply IH.
Qed.

Lemma arr_includes_In (l : list jsstring) (w : jsstring) :
  arr_includes l w = true <-> In w l.
Proof.
  unfold arr_includes. rewrite existsb_exists. split.
  - intros [x [Hin Heq]]. apply str_eqb_eq in Heq. now subst.
  - intros Hin. exists w. split; [assumption | now apply str_eqb_eq].
Qed.

Lemma slice0_nonneg (A : Type) (n : nat) (l : list A) :
  slice0 (Z.of_nat n) l = firstn n l.
Proof.
  unfold slice0. destruct (Z.ltb_spec (Z.of_nat n) 0) as [H|H]; [lia|].
  now rewrite Nat2Z.id.
Qed.

Lemma slice0_5 (A : Type) (l : list A) : slice0 5 l = firstn 5 l.
Proof. apply (slice0_nonneg 5). Qed.

Lemma slice0_length_le (A : Type) (l : list A) : length (slice0 5 l) <= 5.
Proof. rewrite slice0_5, length_firstn. lia. Qed.

(** *** [new Set] keeps one copy of each element *)

Lemma set_add_NoDup (seen : list jsstring) (x : jsstring) :
  NoDup seen -> NoDup (set_add seen x).
Proof.
  intros Hnd. unfold set_add.
  destruct (arr_includes seen x) eqn:Hin; [assumption|].
  apply NoDup_app; [assumption | repeat constructor; intros [] | ].
  intros y Hy [<-|[]]. apply arr_includes_In in Hy. congruence.
Qed.

Lemma fold_set_add_NoDup (l seen : list jsstring) :
  NoDup seen -> NoDup (fold_left set_add l seen).
Proof.
  revert seen; induction l as [|x l IH]; intros seen Hnd; simpl; [assumption|].
  apply IH. now apply set_add_NoDup.
Qed.

Lemma set_of_NoDup (l : list jsstring) : NoDup (set_of l).
Proof. apply fold_set_add_NoDup. constructor. Qed.

Lemma firstn_NoDup (A : Type) (n : nat) (l : list A) : NoDup l -> NoDup (firstn n l).
Proof.
  intros Hnd. rewrite <- (firstn_skipn n l) in Hnd.
  exact (NoDup_app_remove_r _ _ Hnd).
Qed.

(** *** [trim] *)

Lemma trim_start_all_space (s : jsstring) :
  Forall (fun u => is_space u = true) s -> trim_start s = [].
Proof.
  induction 1 as [|c r Hc _ IH]; simpl; [reflexivity|]. now rewrite Hc.
Qed.

Lemma trim_start_cases (s : jsstring) :
  trim_start s = [] \/ exists c r, trim_start s = c :: r /\ is_space c = false.
Proof.
  induction s as [|c r IH]; simpl; [now left|].
  destruct (is_space c) eqn:Hc; [assumption|]. right. now exists c, r.
Qed.

Lemma trim_start_nil_inv (s : jsstring) :
  trim_start s = [] -> Forall (fun u => is_space u = true) s.
Proof.
  induction s as [|c r IH]; simpl; [constructor|].
  destruct (is_space c) eqn:Hc; [|discriminate]. intros H. constructor; auto.
Qed.

Lemma trim_nil_iff (s : jsstring) :
  trim s = [] <-> Forall (fun u => is_space u = true) s.
Proof.
  unfold trim. split.
  - intros H. apply trim_start_nil_inv.
    destruct (trim_start_cases s) as [Hs|(c & r & Hs & Hc)]; [assumption|].
    exfalso. rewrite Hs in H.
    assert (Hrev : trim_start (rev (c :: r)) = []).
    { destruct (trim_start (rev (c :: r))); [reflexivity|].
      apply (f_equal (@length N)) in H. rewrite length_rev in H. discriminate. }
    apply trim_start_nil_inv in Hrev. rewrite Forall_forall in Hrev.
    specialize (Hrev c). rewrite <- in_rev in Hrev.
    rewrite Hrev in Hc; [discriminate | now left].
  - intros H. now rewrite (trim_start_all_space H).
Qed.

Lemma is_blank_iff (s : jsstring) :
  is_blank s = true <-> Forall (fun u => is_space u = true) s.
Proof.
  unfold is_blank. rewrite Nat.eqb_eq, length_zero_iff_nil. apply trim_nil_iff.
Qed.

(** *** [split] *)

Lemma split_on_first (d : N) (s : jsstring) : split_on d s <> [].
Proof.
  destruct s as [|c r]; simpl; [discriminate|].
  destruct (N.eqb c d); [discriminate|]. destruct (split_on d r); discriminate.
Qed.

Section Splitting.

Variable sep : N -> bool.

Lemma split_runs_first (s : jsstring) : split_runs sep s <> [].
Proof.
  induction s as [|c r IH]; simpl; [discriminate|].
  destruct (sep c).
  - destruct r as [|c' r']; [discriminate|]. destruct (sep c'); [assumption|discriminate].
  - destruct (split_runs sep r); discriminate.
Qed.

(** No piece of [split_runs] contains a separator. *)
Lemma split_runs_pieces (s : jsstring) :
  Forall (Forall (fun u => sep u = false)) (split_runs sep s).
Proof.
  induction s as [|c r IH]; simpl; [repeat constructor|].
  destruct (sep c) eqn:Hc.
  - destruct r as [|c' r']; [repeat constructor|].
    destruct (sep c'); [assumption | now constructor].
  - destruct (split_runs sep r) as [|piece rest]; [repeat constructor; assumption|].
    inversion IH; subst. constructor; [now constructor | assumption].
Qed.

(** A text without separators is its own single piece. *)
Lemma split_runs_no_separator (s : jsstring) :
  Forall (fun u => sep u = false) s -> split_runs sep s = [s].
Proof.
  induction 1 as [|c r Hc _ IH]; simpl; [reflexivity|]. now rewrite Hc, IH.
Qed.

End Splitting.

End JSFacts.

(** ** Sentiment classifier *)

Module SentimentFacts.

Import JS Pipeline Spec.

(** The [forEach] loop adds to each counter the number of hits of its
    lexicon. *)
Lemma fold_count_word (words : list jsstring) (p n : nat) :
  fold_left count_word words (p, n)
  = (p + hits positiveWords words, n + hits negativeWords words).
Proof.
  unfold hits. revert p n.
  induction words as [|w ws IH]; intros p n; cbn [fold_left filter length].
  - now rewrite !Nat.add_0_r.
  - unfold count_word at 2. rewrite IH.
    destruct (arr_includes positiveWords w), (arr_includes negativeWords w);
      cbn [length]; f_equal; lia.
Qed.

Lemma analyzeSentiment_four_case (text : jsstring) :
  analyzeSentiment text
  = four_case (hits positiveWords (tokens text)) (hits negativeWords (tokens text)).
Proof.
  unfold analyzeSentiment. rewrite fold_count_word. reflexivity.
Qed.

Lemma tokens_are_words (text : jsstring) :
  Forall (Forall (fun u => is_word u = true)) (tokens text).
Proof.
  unfold tokens. eapply Forall_impl; [|apply JSFacts.split_runs_pieces].
  intros piece Hp. eapply Forall_impl; [|exact Hp].
  intros u Hu. unfold non_word in Hu. now apply negb_false_iff in Hu.
Qed.

(** *** Arithmetic of the confidence *)

Lemma ratio_nonneg (a b : nat) : (0 <= ratio a b)%Q.
Proof.
  unfold ratio. destruct b as [|b].
  - unfold Qdiv, Qinv; simpl. rewrite Qmult_0_r. apply Qle_refl.
  - apply Qle_shift_div_l.
    + unfold Qlt; simpl; lia.
    + rewrite Qmult_0_l. unfold Qle; simpl; lia.
Qed.

Lemma ratio_le_1 (a b : nat) : a <= b -> (ratio a b <= 1)%Q.
Proof.
  intros Hab. unfold ratio. destruct b as [|b].
  - unfold Qdiv, Qinv; simpl. rewrite Qmult_0_r. unfold Qle; simpl; lia.
  - apply Qle_shift_div_r.
    + unfold Qlt; simpl; lia.
    + rewrite Qmult_1_l. unfold Qle; simpl; lia.
Qed.

Lemma ratio_majority (a b : nat) : 0 < b -> b < 2 * a -> (1 # 2 < ratio a b)%Q.
Proof.
  intros Hb Hab. unfold ratio. apply Qlt_shift_div_l.
  - unfold Qlt; simpl; lia.
  - unfold Qlt, Qmult, inject_Z; cbn [Qnum Qden]. lia.
Qed.

(** The confidence of each case of the policy. *)
Lemma four_case_confidence (p n : nat) :
  match label (four_case p n) with
  | positive | negative =>
      (8 # 10 < confidence (four_case p n))%Q /\ (confidence (four_case p n) <= 95 # 100)%Q
  | neutral =>
      confidence (four_case p n) = (5 # 10)%Q \/ confidence (four_case p n) = (7 # 10)%Q
  end.
Proof.
  unfold four_case.
  destruct (Nat.eqb_spec (p + n) 0) as [H0|H0]; [now left|].
  destruct (Nat.ltb_spec n p) as [Hp|Hp]; cbn [label confidence].
  - split; [|apply Q.le_min_l].
    apply Q.min_glb_lt; [reflexivity|].
    assert (Hr := @ratio_majority p (p + n)). specialize (Hr ltac:(lia) ltac:(lia)). lra.
  - destruct (Nat.ltb_spec p n) as [Hn|Hn]; cbn [label confidence]; [|now right].
    split; [|apply Q.le_min_l].
    apply Q.min_glb_lt; [reflexivity|].
    assert (Hr := @ratio_majority n (p + n)). specialize (Hr ltac:(lia) ltac:(lia)). lra.
Qed.

(** C2 (as amended): the classifier is the four-case policy on the numbers of
    positive and negative lexicon hits among the lower-cased tokens, where a
    token is a piece between runs of non-word units; a token holds word units
    only (ASCII letters, digits and the underscore). *)
Theorem sentiment_policy_on_word_tokens (text : jsstring) :
  analyzeSentiment text
  = four_case (hits positiveWords (tokens text)) (hits negativeWords (tokens text))
  /\ Forall (Forall (fun u => is_word u = true)) (tokens text).
Proof.
  split; [apply analyzeSentiment_four_case | apply tokens_are_words].
Qed.

(** C2 (as stated) fails: an underscore is not alphanumeric, yet it does not
    end a token, so the text [good_] has no lexicon hit in the program and one
    positive hit under the stated tokenisation. *)
Lemma sentiment_alnum_tokens_differ :
  analyzeSentiment (lit "good_") <> classify_on_alnum_tokens (lit "good_").
Proof.
  intros H. apply (f_equal label) in H. vm_compute in H. discriminate H.
Qed.

Example sentiment_scenarios :
  analyzeSentiment (lit "This is a great breakthrough for our team!")
  = {| label := positive; confidence := Qmin (95 # 100) ((6 # 10) + ratio 1 1 * (4 # 10))%Q |}
  /\ analyzeSentiment (lit "") = {| label := neutral; confidence := 5 # 10 |}
  /\ analyzeSentiment (lit "good bad") = {| label := neutral; confidence := 7 # 10 |}
  /\ label (analyzeSentiment (lit "a sad, sad day; still good")) = negative
  /\ (confidence (analyzeSentiment (lit "a sad, sad day; still good")) == 26 # 30)%Q.
Proof. repeat split. Qed.

(** C8: the confidence lies in [[0.5, 0.95]] and is below 1. *)
Theorem confidence_range (text : jsstring) :
  (5 # 10 <= confidence (analyzeSentiment text))%Q
  /\ (confidence (analyzeSentiment text) <= 95 # 100)%Q
  /\ (confidence (analyzeSentiment text) < 1)%Q.
Proof.
  rewrite analyzeSentiment_four_case.
  set (p := hits positiveWords (tokens text)).
  set (n := hits negativeWords (tokens text)).
  assert (H := four_case_confidence p n).
  destruct (label (four_case p n)).
  - destruct H as [Hlo Hhi]. repeat split; lra.
  - destruct H as [Hlo Hhi]. repeat split; lra.
  - destruct H as [-> | ->]; repeat split; lra.
Qed.

(** C9: a positive or negative label comes with a confidence above 0.8, a
    neutral label with exactly 0.5 or exactly 0.7; the confidence is never in
    the gap (0.7, 0.8]. *)
Theorem confidence_gap (text : jsstring) :
  match label (analyzeSentiment text) with
  | positive | negative => (8 # 10 < confidence (analyzeSentiment text))%Q
  | neutral =>
      confidence (analyzeSentiment text) = (5 # 10)%Q
      \/ confidence (analyzeSentiment text) = (7 # 10)%Q
  end
  /\ ((confidence (analyzeSentiment text) <= 7 # 10)%Q
      \/ (8 # 10 < confidence (analyzeSentiment text))%Q).
Proof.
  rewrite analyzeSentiment_four_case.
  set (p := hits positiveWords (tokens text)).
  set (n := hits negativeWords (tokens text)).
  assert (H := four_case_confidence p n).
  destruct (label (four_case p n)).
  - destruct H as [Hlo _]. split; [assumption | now right].
  - destruct H as [Hlo _]. split; [assumption | now right].
  - split; [assumption|]. left. destruct H as [-> | ->]; lra.
Qed.

End SentimentFacts.

(** ** Readability scorer *)

Module ReadabilityFacts.

Import JS Pipeline Spec.

Lemma sentence_count_empty : sentence_count [] = 0.
Proof. reflexivity. Qed.

(** C5 (as amended): the score is an integer between 0 and 100; it is 50
    when the sentence count or the word count is zero, and so for the empty
    text. *)
Theorem readability_range_and_default (text : jsstring) :
  (0 <= calculateReadability text <= 100)%Z
  /\ (sentence_count text = 0 \/ word_count text = 0 -> calculateReadability text = 50%Z)
  /\ calculateReadability [] = 50%Z.
Proof.
  split; [|split; [|reflexivity]]; unfold calculateReadability.
  - destruct (_ || _)%bool; lia.
  - intros [H|H]; rewrite H; [reflexivity|].
    now rewrite orb_true_r.
Qed.

Lemma readability_range_and_default_witness :
  word_count (lit "...") <> 0 /\ calculateReadability (lit "...") = 50%Z.
Proof.
  split; [discriminate|].
  apply (proj1 (proj2 (readability_range_and_default (lit "...")))).
  left. reflexivity.
Defined.

(** C5 (as stated) fails: a text of one sentence fragment is scored by the
    formula; [Hello world] has one fragment, two words and three syllables
    and scores 78. *)
Lemma single_fragment_not_50 : ~ single_fragment_scores_50 (lit "Hello world").
Proof.
  intros H. specialize (H eq_refl). vm_compute in H. discriminate H.
Qed.

Example readability_hello_world :
  sentence_count (lit "Hello world") = 1
  /\ word_count (lit "Hello world") = 2
  /\ syllable_count (lit "Hello world") = 3
  /\ calculateReadability (lit "Hello world") = 78%Z.
Proof. repeat split. Qed.

End ReadabilityFacts.

(** ** Hashtags *)

Module HashtagFacts.

Import JS Pipeline Spec.

Lemma extractHashtags_length_le (content : jsstring) (platform : Platform) :
  length (extractHashtags content platform) <= 5.
Proof. apply JSFacts.slice0_length_le. Qed.

Lemma generateOptimizedHashtags_length_le (content : jsstring) (platform : Platform) :
  length (RouteV2.generateOptimizedHashtags content platform) <= 5.
Proof. apply JSFacts.slice0_length_le. Qed.

Lemma generateOptimizedHashtags_NoDup (content : jsstring) (platform : Platform) :
  NoDup (RouteV2.generateOptimizedHashtags content platform).
Proof.
  unfold RouteV2.generateOptimizedHashtags. rewrite JSFacts.slice0_5.
  apply JSFacts.firstn_NoDup, JSFacts.set_of_NoDup.
Qed.

(** C4: the baseline extractor returns a repeated tag.  For the text
    [innovation] on the short-form channel the content-based tag
    [#innovation] is followed by the first two channel tags, the second of
    which is [#innovation] again; the baseline handler returns that list. *)
Theorem extractHashtags_repeats_a_tag :
  extractHashtags (lit "innovation") Twitter
  = map lit ["#innovation"; "#tech"; "#innovation"]%string
  /\ ~ NoDup (extractHashtags (lit "innovation") Twitter)
  /\ exists r,
       RouteV1.POST Samples.env (Some (Samples.request "innovation" None)) = Ok r
       /\ sv_hashtags (twitter (RouteV1.platforms r))
          = extractHashtags (lit "innovation") Twitter.
Proof.
  assert (E : extractHashtags (lit "innovation") Twitter
              = map lit ["#innovation"; "#tech"; "#innovation"]%string)
    by (vm_compute; reflexivity).
  split; [exact E|]. split.
  - rewrite E. intros H. inversion H as [|x l Hx Hl]; subst.
    apply Hx. right. left. reflexivity.
  - eexists. split; reflexivity.
Qed.

Lemma channel_tags_length (platform : Platform) :
  platform <> Newsletter -> length (commonHashtags platform) = 6.
Proof. destruct platform; [reflexivity | reflexivity | congruence]. Qed.

(** C7 (as amended): with fewer than three content-based tags the channel
    tags fill the slots up to three, content-based tags first; a text without
    trigger words gets the first three channel tags. *)
Theorem channel_tags_fill_to_three (text : jsstring) (platform : Platform) :
  platform <> Newsletter ->
  length (contentTags (long_words text)) < 3 ->
  extractHashtags text platform
  = contentTags (long_words text)
      ++ firstn (3 - length (contentTags (long_words text))) (commonHashtags platform)
  /\ length (extractHashtags text platform) = 3
  /\ (contentTags (long_words text) = [] ->
      extractHashtags text platform = firstn 3 (commonHashtags platform)).
Proof.
  intros Hp Hk. unfold extractHashtags.
  set (tags := contentTags (long_words text)) in *.
  assert (Hslice : slice0 (3 - Z.of_nat (length tags)) (commonHashtags platform)
                   = firstn (3 - length tags) (commonHashtags platform)).
  { replace (3 - Z.of_nat (length tags))%Z with (Z.of_nat (3 - length tags)) by lia.
    apply JSFacts.slice0_nonneg. }
  rewrite Hslice, JSFacts.slice0_5.
  assert (Hlen : length (tags ++ firstn (3 - length tags) (commonHashtags platform)) = 3).
  { rewrite length_app, length_firstn, (channel_tags_length Hp). lia. }
  rewrite firstn_all2 by lia.
  split; [reflexivity|]. split; [exact Hlen|].
  intros E. rewrite E. reflexivity.
Qed.

Lemma channel_tags_fill_to_three_witness :
  extractHashtags (lit "hello") Twitter = map lit ["#tech"; "#innovation"; "#business"]%string.
Proof.
  apply (proj2 (proj2 (@channel_tags_fill_to_three (lit "hello") Twitter
                         ltac:(discriminate) ltac:(vm_compute; lia)))).
  reflexivity.
Defined.

(** C7 (as stated) fails: a text without trigger words gets three channel
    tags, not five. *)
Lemma no_trigger_text_gets_three_tags : ~ fills_up_to_five (lit "hello") Twitter.
Proof.
  intros H. unfold fills_up_to_five in H.
  assert (Hk : length (contentTags (long_words (lit "hello"))) < 5) by (vm_compute; lia).
  specialize (H Hk). apply (f_equal (@length jsstring)) in H.
  vm_compute in H. discriminate H.
Qed.

(** With all four content-based tags the end of the slice is negative and
    counts from the end of the channel list. *)
Example four_content_tags :
  extractHashtags (lit "technology business innovation artificial") Twitter
  = map lit ["#technology"; "#business"; "#innovation"; "#ai"; "#tech"]%string.
Proof. vm_compute. reflexivity. Qed.

End HashtagFacts.

(** ** Channel adapter *)

Module AdapterFacts.

Import JS Pipeline Spec.

Lemma ellipsis_length : length ellipsis = 3.
Proof. reflexivity. Qed.

Lemma engagement_prompt_length : length engagement_prompt = 19.
Proof. reflexivity. Qed.

(** The channel pass of the short-form channel, by the length of its input. *)
Lemma adaptTwitter_cases (t : jsstring) :
  (240 < length t -> adaptTwitter t = firstn 240 t ++ ellipsis)
  /\ (length t < 200 -> adaptTwitter t = t ++ engagement_prompt)
  /\ (200 <= length t <= 240 -> adaptTwitter t = t).
Proof.
  unfold adaptTwitter, substring0. repeat split; intros H.
  - destruct (Nat.ltb_spec 240 (length t)) as [_|]; [|lia].
    destruct (Nat.ltb_spec (length (firstn 240 t ++ ellipsis)) 200) as [Hlt|]; [|reflexivity].
    rewrite length_app, length_firstn, ellipsis_length in Hlt. lia.
  - destruct (Nat.ltb_spec 240 (length t)); [lia|].
    destruct (Nat.ltb_spec (length t) 200); [reflexivity | lia].
  - destruct (Nat.ltb_spec 240 (length t)); [lia|].
    destruct (Nat.ltb_spec (length t) 200); [lia | reflexivity].
Qed.

Lemma adaptTwitter_length (t : jsstring) : length (adaptTwitter t) <= 240 + length ellipsis.
Proof.
  destruct (adaptTwitter_cases t) as (Hlong & Hshort & Hmid).
  rewrite ellipsis_length.
  destruct (Nat.lt_ge_cases 240 (length t)) as [H|H].
  - rewrite (Hlong H), length_app, length_firstn, ellipsis_length. lia.
  - destruct (Nat.lt_ge_cases (length t) 200) as [H'|H'].
    + rewrite (Hshort H'), length_app, engagement_prompt_length. lia.
    + rewrite Hmid; lia.
Qed.

(** C6: on the short-form channel a tone-adjusted text longer than 240 units
    is cut to its first 240 units followed by the ellipsis, the prompt is
    appended exactly when the tone-adjusted text is shorter than 200 units,
    and the result is never longer than 240 units plus the ellipsis; a text
    of 300 units gives at most 244. *)
Theorem short_form_adaptation (content : jsstring) (audience tone : option jsstring) :
  (240 < length (applyTone tone content) ->
   adaptForPlatform content Twitter audience tone
   = firstn 240 (applyTone tone content) ++ ellipsis)
  /\ (length (applyTone tone content) < 200 ->
      adaptForPlatform content Twitter audience tone
      = applyTone tone content ++ engagement_prompt)
  /\ (200 <= length (applyTone tone content) <= 240 ->
      adaptForPlatform content Twitter audience tone = applyTone tone content)
  /\ length (adaptForPlatform content Twitter audience tone) <= 240 + length ellipsis
  /\ (length content = 300 ->
      length (adaptForPlatform content Twitter audience tone) <= 244).
Proof.
  unfold adaptForPlatform.
  destruct (adaptTwitter_cases (applyTone tone content)) as (Hlong & Hshort & Hmid).
  assert (Hlen := adaptTwitter_length (applyTone tone content)).
  rewrite ellipsis_length in *.
  repeat split; try assumption; lia.
Qed.

Lemma short_form_adaptation_witness :
  length (adaptForPlatform (repeat 97%N 300) Twitter None None) <= 244.
Proof.
  apply (proj2 (proj2 (proj2 (proj2
           (short_form_adaptation (repeat 97%N 300) None None))))).
  reflexivity.
Defined.

Example short_form_300 :
  adaptForPlatform (repeat 97%N 300) Twitter None None = repeat 97%N 240 ++ lit "...".
Proof. vm_compute. reflexivity. Qed.

Example professional_tone :
  adaptForPlatform (lit "This is awesome!") Twitter None (Some (lit "professional"))
  = lit "This is excellent. What do you think?".
Proof. vm_compute. reflexivity. Qed.

End AdapterFacts.

(** ** The handler *)

Module HandlerFacts.

Import JS Pipeline Spec.

Lemma validated_blank (body : ContentRequest) :
  missing_or_blank body -> validated body = None.
Proof.
  unfold validated. intros [H | (c & H & Hc)]; rewrite H; [reflexivity|].
  destruct c as [|u c']; [reflexivity|].
  apply JSFacts.is_blank_iff in Hc. now rewrite Hc.
Qed.



(** C3: a request whose text is missing or made of white space only is
    answered with the client error whatever the analysis is (the guard comes
    first and the analysis is not consulted), in both revisions, and gets no
    result. *)
Theorem blank_text_rejected (env : Env) (body : ContentRequest) :
  missing_or_blank body ->
  (forall (R : Type) (analyse : jsstring -> option jsstring -> option jsstring -> R),
      respond analyse (Some body) = Error 400 (lit "Content is required"))
  /\ RouteV1.POST env (Some body) = Error 400 (lit "Content is required")
  /\ RouteV2.POST env (Some body) = Error 400 (lit "Content is required")
  /\ (forall r, RouteV1.POST env (Some body) <> Ok r)
  /\ (forall r, RouteV2.POST env (Some body) <> Ok r).
Proof.
  intros H. apply validated_blank in H.
  unfold RouteV1.POST, RouteV2.POST, respond. rewrite H.
  repeat split; intros r; discriminate.
Qed.

Lemma blank_text_rejected_witness :
  RouteV2.POST Samples.env (Some (Samples.request "  " None))
  = Error 400 (lit "Content is required").
Proof.
  assert (H : missing_or_blank (Samples.request "  " None)).
  { right. exists (lit "  "). split; [reflexivity | repeat constructor]. }
  exact (proj1 (proj2 (proj2
           (@blank_text_rejected Samples.env (Samples.request "  " None) H)))).
Defined.

(** *** The newsletter subject line *)

Lemma split_on_head (s : jsstring) : nth 0 (split_on 46 s) [] = first_segment s.
Proof.
  induction s as [|c r IH]; simpl; [reflexivity|].
  destruct (N.eqb c 46); [reflexivity|].
  destruct (split_on 46 r) as [|piece rest]; simpl in *; now rewrite <- IH.
Qed.

Lemma subjectLine_shape (content : jsstring) :
  subjectLine content
  = firstn 50 (first_segment content) ++ (if 50 <? length content then lit "..." else []).
Proof.
  unfold subjectLine, substring0. rewrite split_on_head.
  destruct (50 <? length content); reflexivity.
Qed.

Lemma subjectLine_length (content : jsstring) : length (subjectLine content) <= 53.
Proof.
  rewrite subjectLine_shape, length_app, length_firstn.
  destruct (50 <? length content);
    [change (length (lit "...")) with 3 | change (length (@nil N)) with 0]; lia.
Qed.

(** *** What the extended handler puts in its result *)

Ltac split_pairs :=
  repeat match goal with
         | |- context [let (_, _) := ?e in _] => destruct e
         end.

Lemma predictEngagement_draws (env : Env) (content : jsstring) (platform : Platform)
    (s : Sentiment) (i : nat) :
  snd (RouteV2.predictEngagement env content platform s i)
  = i + (if RouteV2.is_newsletter platform then 0 else 3).
Proof.
  destruct platform; cbn [RouteV2.predictEngagement snd RouteV2.is_newsletter]; lia.
Qed.

Lemma process_forecast (env : Env) (content : jsstring) (audience tone : option jsstring) :
  RouteV2.engagement_forecast (RouteV2.process env content audience tone)
  = {| RouteV2.forecast_twitter :=
         fst (RouteV2.predictEngagement env content Twitter (analyzeSentiment content) 0);
       RouteV2.forecast_linkedin :=
         fst (RouteV2.predictEngagement env content LinkedIn (analyzeSentiment content) 3);
       RouteV2.forecast_newsletter :=
         fst (RouteV2.predictEngagement env content Newsletter (analyzeSentiment content) 6) |}.
Proof.
  unfold RouteV2.process.
  set (s := analyzeSentiment content).
  destruct (RouteV2.predictEngagement env content Twitter s 0) as [f1 i1] eqn:E1.
  assert (H1 := predictEngagement_draws env content Twitter s 0).
  rewrite E1 in H1. cbn in H1. subst i1.
  destruct (RouteV2.predictEngagement env content LinkedIn s 3) as [f2 i2] eqn:E2.
  assert (H2 := predictEngagement_draws env content LinkedIn s 3).
  rewrite E2 in H2. cbn in H2. subst i2.
  destruct (RouteV2.predictEngagement env content Newsletter s 6) as [f3 i3] eqn:E3.
  split_pairs. reflexivity.
Qed.

Lemma process_subject_line (env : Env) (content : jsstring) (audience tone : option jsstring) :
  nv_subject_line (newsletter (RouteV2.platforms (RouteV2.process env content audience tone)))
  = subjectLine content.
Proof. unfold RouteV2.process. split_pairs. reflexivity. Qed.

Lemma process_adapted (env : Env) (content : jsstring) (audience tone : option jsstring)
    (platform : Platform) :
  adapted_of platform (RouteV2.process env content audience tone)
  = adaptForPlatform content platform audience tone.
Proof. unfold RouteV2.process. split_pairs. destruct platform; reflexivity. Qed.

(** C10: the subject line is the first 50 units of the first ['.']-delimited
    segment of the submitted text, followed by ["..."] exactly when the whole
    text is longer than 50 units; it is at most 53 units long.  Both
    revisions. *)
Theorem subject_line_shape (env : Env) (body : ContentRequest) (content : jsstring) :
  validated body = Some content ->
  exists r1 r2,
    RouteV1.POST env (Some body) = Ok r1
    /\ RouteV2.POST env (Some body) = Ok r2
    /\ nv_subject_line (newsletter (RouteV1.platforms r1))
       = firstn 50 (first_segment content)
           ++ (if 50 <? length content then lit "..." else [])
    /\ nv_subject_line (newsletter (RouteV2.platforms r2))
       = nv_subject_line (newsletter (RouteV1.platforms r1))
    /\ length (nv_subject_line (newsletter (RouteV1.platforms r1))) <= 53.
Proof.
  intros Hv. unfold RouteV1.POST, RouteV2.POST, respond. rewrite Hv.
  eexists. eexists. split; [reflexivity|]. split; [reflexivity|].
  rewrite process_subject_line. cbn [RouteV1.process RouteV1.platforms newsletter nv_subject_line].
  split; [apply subjectLine_shape|]. split; [reflexivity | apply subjectLine_length].
Qed.

Lemma subject_line_shape_witness :
  exists r1 r2,
    RouteV1.POST Samples.env (Some (Samples.request "Hello. World" None)) = Ok r1
    /\ RouteV2.POST Samples.env (Some (Samples.request "Hello. World" None)) = Ok r2
    /\ nv_subject_line (newsletter (RouteV1.platforms r1))
       = firstn 50 (first_segment (lit "Hello. World"))
           ++ (if 50 <? length (lit "Hello. World") then lit "..." else [])
    /\ nv_subject_line (newsletter (RouteV2.platforms r2))
       = nv_subject_line (newsletter (RouteV1.platforms r1))
    /\ length (nv_subject_line (newsletter (RouteV1.platforms r1))) <= 53.
Proof.
  apply (@subject_line_shape Samples.env (Samples.request "Hello. World" None)).
  reflexivity.
Defined.

Example subject_line_long_text :
  subjectLine (lit "Short start. Then a much longer rest of the text goes on here")
  = lit "Short start...".
Proof. vm_compute. reflexivity. Qed.

(** *** The forecast *)

(** C1 (as amended): the forecast of each channel is computed from the
    submitted text, at the draws the handler has reached, and so is the same
    for every tone and audience. *)
Theorem forecast_from_submitted_text (env : Env) (body : ContentRequest)
    (content : jsstring) :
  validated body = Some content ->
  exists r,
    RouteV2.POST env (Some body) = Ok r
    /\ (forall platform,
          forecast_of platform r
          = fst (RouteV2.predictEngagement env content platform
                   (analyzeSentiment content) (first_draw platform)))
    /\ (forall audience' tone',
          RouteV2.engagement_forecast (RouteV2.process env content audience' tone')
          = RouteV2.engagement_forecast r).
Proof.
  intros Hv. unfold RouteV2.POST, respond. rewrite Hv.
  eexists. split; [reflexivity|]. split.
  - intros platform. unfold forecast_of. rewrite process_forecast.
    destruct platform; reflexivity.
  - intros audience' tone'. now rewrite !process_forecast.
Qed.

Lemma forecast_from_submitted_text_witness :
  exists r,
    RouteV2.POST Samples.env (Some (Samples.request "Hello" None)) = Ok r
    /\ (forall platform,
          forecast_of platform r
          = fst (RouteV2.predictEngagement Samples.env (lit "Hello") platform
                   (analyzeSentiment (lit "Hello")) (first_draw platform)))
    /\ (forall audience' tone',
          RouteV2.engagement_forecast
            (RouteV2.process Samples.env (lit "Hello") audience' tone')
          = RouteV2.engagement_forecast r).
Proof.
  apply (@forecast_from_submitted_text Samples.env (Samples.request "Hello" None)).
  reflexivity.
Defined.

(** C1 (as stated) fails: for the text [Hello] the short-form forecast has
    score 50, while the forecast of the adapted text, which ends with the
    appended question, has score 62. *)
Lemma forecast_not_from_adapted :
  ~ forecast_from_adapted Samples.env (Samples.request "Hello" None).
Proof.
  intros H. specialize (H _ Twitter eq_refl).
  apply (f_equal RouteV2.engagement_score) in H.
  vm_compute in H. discriminate H.
Qed.

Example forecast_hello :
  RouteV2.platformScore (lit "Hello") Twitter (analyzeSentiment (lit "Hello")) = 50%Z
  /\ RouteV2.platformScore (adaptForPlatform (lit "Hello") Twitter None None) Twitter
       (analyzeSentiment (lit "Hello")) = 62%Z.
Proof. split; vm_compute; reflexivity. Qed.

End HandlerFacts.

(** * Further properties of the code *)

(** ** Substring search *)

Module IncludesFacts.

Import JS.

Lemma starts_with_app (p s t : jsstring) :
  starts_with p s = true -> starts_with p (s ++ t) = true.
Proof.
  revert s; induction p as [|x p IH]; intros [|y s]; simpl; try discriminate; auto.
  intros H. apply andb_true_iff in H as [Hx Hp]. now rewrite Hx, (IH _ Hp).
Qed.

Lemma starts_with_self (p t : jsstring) : starts_with p (p ++ t) = true.
Proof. induction p as [|x p IH]; simpl; [reflexivity|]. now rewrite N.eqb_refl. Qed.

Lemma includes_app_l (s t p : jsstring) :
  includes s p = true -> includes (s ++ t) p = true.
Proof.
  induction s as [|c s IH].
  - simpl. rewrite orb_false_r. intros H. destruct p; [|discriminate].
    destruct t; reflexivity.
  - cbn [includes app]. intros H. apply orb_true_iff in H as [H|H].
    + apply (starts_with_app _ _ t) in H. cbn [app] in H. now rewrite H.
    + rewrite (IH H). apply orb_true_r.
Qed.

Lemma includes_app_r (s t p : jsstring) :
  includes t p = true -> includes (s ++ t) p = true.
Proof.
  intros H. induction s as [|c s IH]; [exact H|].
  cbn [includes app]. rewrite IH. apply orb_true_r.
Qed.

Lemma includes_mid (s t p : jsstring) : includes (s ++ p ++ t) p = true.
Proof.
  apply includes_app_r. destruct (p ++ t) eqn:E; cbn [includes]; rewrite <- E;
    now rewrite starts_with_self.
Qed.

(** Searching for a one-unit string is membership. *)
Lemma includes_unit (s : jsstring) (c : N) : includes s [c] = true <-> In c s.
Proof.
  induction s as [|x s IH]; cbn [includes starts_with In].
  - split; [discriminate | intros []].
  - rewrite orb_true_iff, IH, andb_true_r, N.eqb_eq. firstorder congruence.
Qed.

Lemma includes_unit_false (s : jsstring) (c : N) :
  includes s [c] = false <-> ~ In c s.
Proof.
  rewrite <- includes_unit. destruct (includes s [c]); split; congruence.
Qed.

End IncludesFacts.

(** ** Engagement forecaster *)

Module ForecastFacts.

Import JS Pipeline.

Lemma bonus_range (b : bool) (points : Z) :
  (0 <= points -> 0 <= RouteV2.bonus b points <= points)%Z.
Proof. destruct b; simpl; lia. Qed.

Lemma featureScore_range (content : jsstring) (sentiment : Sentiment) :
  (50 <= RouteV2.featureScore content sentiment <= 110)%Z.
Proof.
  unfold RouteV2.featureScore.
  assert (H1 := @bonus_range (includes content (lit "#")) 10).
  assert (H2 := @bonus_range (RouteV2.hasEmojis content) 8).
  assert (H3 := @bonus_range (includes content (lit "?")) 12).
  assert (H4 := @bonus_range (test_words RouteV2.callToAction None content) 15).
  destruct (label sentiment); lia.
Qed.

Lemma platformScore_range (content : jsstring) (platform : Platform)
    (sentiment : Sentiment) :
  (match platform with Twitter => 30 | LinkedIn => 50 | Newsletter => 45 end
   <= RouteV2.platformScore content platform sentiment
   <= match platform with Twitter => 120 | LinkedIn => 135 | Newsletter => 120 end)%Z.
Proof.
  assert (H := featureScore_range content sentiment).
  unfold RouteV2.platformScore. destruct platform.
  - destruct (_ && _)%bool; [lia|]. destruct (280 <? _); lia.
  - destruct (_ && _)%bool; destruct (_ || _)%bool; lia.
  - destruct (_ <=? 50); lia.
Qed.

(** X1: The engagement score is the capped base score: never above 100, and
    never below 30 (short form), 50 (professional) or 45 (digest), whatever
    the text, the sentiment record and the draws are. *)
Theorem engagement_score_range (env : Env) (content : jsstring) (platform : Platform)
    (sentiment : Sentiment) (i : nat) :
  (match platform with Twitter => 30 | LinkedIn => 50 | Newsletter => 45 end
   <= RouteV2.engagement_score
        (fst (RouteV2.predictEngagement env content platform sentiment i))
   <= 100)%Z.
Proof.
  assert (H := platformScore_range content platform sentiment).
  destruct platform; cbn [RouteV2.predictEngagement fst RouteV2.engagement_score]; lia.
Qed.

Lemma inject_Z_le (a b : Z) : (a <= b)%Z -> (inject_Z a <= inject_Z b)%Q.
Proof. intros H. rewrite <- Zle_Qle. exact H. Qed.

(** X2: The digest forecast: the open rate lies in [[27, 45]] and the click rate
    in [[9, 15]]; the lower clamps at 15 and at 2 are never reached. *)
Theorem newsletter_rates_range (env : Env) (content : jsstring) (sentiment : Sentiment)
    (i : nat) :
  exists open_rate click_rate score time,
    fst (RouteV2.predictEngagement env content Newsletter sentiment i)
    = RouteV2.NewsletterForecast open_rate click_rate score time
    /\ (27 <= open_rate)%Q /\ (open_rate <= 45)%Q
    /\ (9 <= click_rate)%Q /\ (click_rate <= 15)%Q
    /\ (open_rate == Qmin 45 (inject_Z (RouteV2.platformScore content Newsletter sentiment)
                               * (6 # 10)))%Q
    /\ (click_rate == Qmin 15 (inject_Z (RouteV2.platformScore content Newsletter sentiment)
                                * (2 # 10)))%Q.
Proof.
  cbn [RouteV2.predictEngagement fst].
  set (b := RouteV2.platformScore content Newsletter sentiment).
  assert (Hb := platformScore_range content Newsletter sentiment). fold b in Hb.
  destruct Hb as [Hlo _]. apply inject_Z_le in Hlo.
  change (inject_Z 45) with 45%Q in Hlo.
  do 4 eexists. split; [reflexivity|].
  assert (Ho : (Qmax 15 (inject_Z b * (6 # 10)) == inject_Z b * (6 # 10))%Q).
  { apply Q.max_r. lra. }
  assert (Hc : (Qmax 2 (inject_Z b * (2 # 10)) == inject_Z b * (2 # 10))%Q).
  { apply Q.max_r. lra. }
  repeat split.
  - apply Q.min_glb; [lra|]. rewrite Ho. lra.
  - apply Q.le_min_l.
  - apply Q.min_glb; [lra|]. rewrite Hc. lra.
  - apply Q.le_min_l.
  - now rewrite Ho.
  - now rewrite Hc.
Qed.

(** *** The rounded metrics *)

Lemma round_ge (lo : Z) (x : Q) : (inject_Z lo <= x)%Q -> (lo <= round x)%Z.
Proof.
  intros H. unfold round. rewrite <- (Qfloor_Z lo).
  apply Qfloor_resp_le. lra.
Qed.

Lemma round_le (hi : Z) (x : Q) : (x <= inject_Z hi)%Q -> (round x <= hi)%Z.
Proof.
  intros H. unfold round.
  assert (Hf := Qfloor_le (x + (1 # 2))).
  assert (Hlt : (inject_Z (Qfloor (x + (1 # 2))) < inject_Z (hi + 1))%Q).
  { rewrite inject_Z_plus. change (inject_Z 1) with 1%Q. lra. }
  rewrite <- Zlt_Qlt in Hlt. lia.
Qed.

Lemma metric_range (base lo hi : Z) (m r j : Q) :
  (0 <= r)%Q -> (r < 1)%Q -> (0 <= j)%Q ->
  (inject_Z lo <= inject_Z base * m)%Q ->
  (inject_Z base * m + j <= inject_Z hi)%Q ->
  (lo <= RouteV2.metric base m r j <= hi)%Z.
Proof.
  intros Hr0 Hr1 Hj Hlo Hhi. unfold RouteV2.metric.
  assert (H0 : (0 <= r * j)%Q) by now apply Qmult_le_0_compat.
  assert (H1 : (r * j <= 1 * j)%Q) by (apply Qmult_le_compat_r; [lra | assumption]).
  split; [apply round_ge | apply round_le]; lra.
Qed.

Ltac qconst :=
  repeat match goal with
         | H : context [inject_Z (Zpos ?p)] |- _ =>
             change (inject_Z (Zpos p)) with (Zpos p # 1)%Q in H
         | |- context [inject_Z (Zpos ?p)] =>
             change (inject_Z (Zpos p)) with (Zpos p # 1)%Q
         end.

(** X3: With every draw in [[0, 1)] the predicted counts stay in fixed ranges:
    short form 69..296 likes, 24..106 retweets, 15..68 replies; professional
    90..258 likes, 30..89 shares, 45..134 comments. *)
Theorem predicted_counts_range (env : Env) (content : jsstring) (sentiment : Sentiment)
    (i : nat) :
  (forall k, 0 <= random env k /\ random env k < 1)%Q ->
  (exists likes retweets replies score time,
      fst (RouteV2.predictEngagement env content Twitter sentiment i)
      = RouteV2.TwitterForecast likes retweets replies score time
      /\ (69 <= likes <= 296)%Z /\ (24 <= retweets <= 106)%Z /\ (15 <= replies <= 68)%Z)
  /\ (exists likes shares comments score time,
         fst (RouteV2.predictEngagement env content LinkedIn sentiment i)
         = RouteV2.LinkedInForecast likes shares comments score time
         /\ (90 <= likes <= 258)%Z /\ (30 <= shares <= 89)%Z /\ (45 <= comments <= 134)%Z).
Proof.
  intros Hr.
  assert (Ht := platformScore_range content Twitter sentiment).
  assert (Hl := platformScore_range content LinkedIn sentiment).
  cbn [RouteV2.predictEngagement fst].
  set (bt := RouteV2.platformScore content Twitter sentiment) in *.
  set (bl := RouteV2.platformScore content LinkedIn sentiment) in *.
  destruct Ht as [Ht1 Ht2], Hl as [Hl1 Hl2].
  apply inject_Z_le in Ht1, Ht2, Hl1, Hl2.
  split; do 5 eexists; (split; [reflexivity|]); (split; [|split]);
    (apply metric_range;
     [apply (proj1 (Hr _)) | apply (proj2 (Hr _)) | unfold Qle; simpl; lia
     | qconst; lra | qconst; lra]).
Qed.

Lemma predicted_counts_range_witness :
  exists likes retweets replies score time,
    fst (RouteV2.predictEngagement Samples.env (lit "Hello") Twitter
           (analyzeSentiment (lit "Hello")) 0)
    = RouteV2.TwitterForecast likes retweets replies score time
    /\ (69 <= likes <= 296)%Z /\ (24 <= retweets <= 106)%Z /\ (15 <= replies <= 68)%Z.
Proof.
  apply (@predicted_counts_range Samples.env (lit "Hello")
           (analyzeSentiment (lit "Hello")) 0).
  intros k. split; [discriminate | reflexivity].
Defined.

End ForecastFacts.

(** ** Optimized variants *)

Module OptimizeFacts.

Import JS Pipeline.

Lemma floor_times_four (r : Q) :
  (0 <= r)%Q -> (r < 1)%Q -> (0 <= Qfloor (r * 4) < 4)%Z.
Proof.
  intros H0 H1.
  assert (Hle := Qfloor_le (r * 4)). assert (Hlt := Qlt_floor (r * 4)).
  assert (Hup : (inject_Z (Qfloor (r * 4)) < inject_Z 4)%Q)
    by (change (inject_Z 4) with 4%Q; lra).
  assert (Hdn : (inject_Z 0 < inject_Z (Qfloor (r * 4) + 1))%Q)
    by (change (inject_Z 0) with 0%Q; lra).
  rewrite <- Zlt_Qlt in Hup, Hdn. lia.
Qed.

(** Each of the four questions has a question mark. *)
Lemma question_has_mark (k : Z) :
  (0 <= k < 4)%Z -> includes (RouteV2.index_text RouteV2.questions k) (lit "?") = true.
Proof.
  intros H. assert (E : k = 0%Z \/ k = 1%Z \/ k = 2%Z \/ k = 3%Z) by lia.
  destruct E as [-> | [-> | [-> | ->]]]; reflexivity.
Qed.

(** X4: On the two social channels the optimisation only appends to the text it
    is given, and the short-form result always carries a hashtag marker. *)
Theorem optimized_only_appends (env : Env) (content : jsstring) (sentiment : Sentiment)
    (i : nat) :
  (exists suffix,
      fst (RouteV2.optimizeContentForEngagement env content Twitter sentiment i)
      = content ++ suffix)
  /\ (exists suffix,
         fst (RouteV2.optimizeContentForEngagement env content LinkedIn sentiment i)
         = content ++ suffix)
  /\ includes (fst (RouteV2.optimizeContentForEngagement env content Twitter sentiment i))
        (lit "#") = true.
Proof.
  unfold RouteV2.optimizeContentForEngagement. cbn [RouteV2.is_newsletter negb andb].
  rewrite !andb_true_r.
  destruct (negb (includes content (lit "?"))); cbn [fst].
  - set (q := lit " " ++ RouteV2.index_text RouteV2.questions (Qfloor (random env i * 4))).
    repeat split.
    + destruct (negb (includes (content ++ q) (lit "#"))).
      * exists (q ++ lit " #Innovation"). now rewrite app_assoc.
      * now exists q.
    + destruct (_ && _)%bool.
      * eexists. now rewrite <- app_assoc.
      * now exists q.
    + destruct (includes (content ++ q) (lit "#")) eqn:E; cbn [negb]; [exact E|].
      apply IncludesFacts.includes_app_r. reflexivity.
  - repeat split.
    + destruct (negb (includes content (lit "#"))); [now eexists | exists []; now rewrite app_nil_r].
    + destruct (_ && _)%bool; [now eexists | exists []; now rewrite app_nil_r].
    + destruct (includes content (lit "#")) eqn:E; cbn [negb]; [exact E|].
      apply IncludesFacts.includes_app_r. reflexivity.
Qed.

(** X5: With every draw in [[0, 1)] the optimized social variants always contain
    a question mark: one of the four questions is appended when the text has
    none. *)
Theorem optimized_has_question (env : Env) (content : jsstring) (sentiment : Sentiment)
    (i : nat) :
  (forall k, 0 <= random env k /\ random env k < 1)%Q ->
  includes (fst (RouteV2.optimizeContentForEngagement env content Twitter sentiment i))
    (lit "?") = true
  /\ includes (fst (RouteV2.optimizeContentForEngagement env content LinkedIn sentiment i))
       (lit "?") = true.
Proof.
  intros Hr.
  assert (Hq : forall c, includes c (lit "?") = false ->
               includes (c ++ lit " " ++ RouteV2.index_text RouteV2.questions
                                         (Qfloor (random env i * 4)))
                        (lit "?") = true).
  { intros c _. apply IncludesFacts.includes_app_r, IncludesFacts.includes_app_r.
    apply question_has_mark, floor_times_four; apply Hr. }
  unfold RouteV2.optimizeContentForEngagement. cbn [RouteV2.is_newsletter negb andb].
  rewrite !andb_true_r.
  destruct (includes content (lit "?")) eqn:E; cbn [negb fst].
  - split.
    + destruct (negb _); [now apply IncludesFacts.includes_app_l | exact E].
    + destruct (_ && _)%bool; [now apply IncludesFacts.includes_app_l | exact E].
  - specialize (Hq content E). split.
    + destruct (negb _); [now apply IncludesFacts.includes_app_l | exact Hq].
    + destruct (_ && _)%bool; [now apply IncludesFacts.includes_app_l | exact Hq].
Qed.

Lemma optimized_has_question_witness :
  includes (fst (RouteV2.optimizeContentForEngagement Samples.env (lit "Hello") Twitter
                   (analyzeSentiment (lit "Hello")) 0)) (lit "?") = true.
Proof.
  assert (Hr : (forall k, 0 <= random Samples.env k /\ random Samples.env k < 1)%Q).
  { intros k. split; [discriminate | reflexivity]. }
  exact (proj1 (@optimized_has_question Samples.env (lit "Hello")
                  (analyzeSentiment (lit "Hello")) 0 Hr)).
Defined.

(** *** The digest subject *)

Lemma split_on_length (d : N) (s : jsstring) :
  length (split_on d s) = S (length (filter (fun u => N.eqb u d) s)).
Proof.
  induction s as [|c r IH]; cbn [split_on filter]; [reflexivity|].
  destruct (N.eqb c d); cbn [length]; [now rewrite IH|].
  destruct (split_on d r); cbn [length] in *; [discriminate | exact IH].
Qed.

(** X6: The optimized digest subject makes no draw.  For a text with at least
    eight space units it is the first 47 units of the first ['.']-delimited
    segment followed by ["..."], at most 50 units; for a text with fewer
    spaces it is the text itself, whatever its length. *)
Theorem optimized_subject (env : Env) (content : jsstring) (sentiment : Sentiment)
    (i : nat) :
  snd (RouteV2.optimizeContentForEngagement env content Newsletter sentiment i) = i
  /\ (8 <= length (filter (fun u => N.eqb u 32) content) ->
      fst (RouteV2.optimizeContentForEngagement env content Newsletter sentiment i)
      = firstn 47 (Spec.first_segment content) ++ lit "..."
      /\ length (fst (RouteV2.optimizeContentForEngagement env content Newsletter
                        sentiment i)) <= 50)
  /\ (length (filter (fun u => N.eqb u 32) content) < 8 ->
      fst (RouteV2.optimizeContentForEngagement env content Newsletter sentiment i)
      = content).
Proof.
  unfold RouteV2.optimizeContentForEngagement, substring0.
  cbn [RouteV2.is_newsletter negb]. rewrite andb_false_r, split_on_length.
  rewrite HandlerFacts.split_on_head. cbn [fst snd].
  split; [reflexivity|]. split; intros H.
  - destruct (Nat.ltb_spec 8 (S (length (filter (fun u => N.eqb u 32) content))));
      [|lia].
    split; [reflexivity|]. rewrite length_app, length_firstn.
    change (length (lit "...")) with 3. lia.
  - destruct (Nat.ltb_spec 8 (S (length (filter (fun u => N.eqb u 32) content))));
      [lia | reflexivity].
Qed.

Lemma optimized_subject_witness :
  fst (RouteV2.optimizeContentForEngagement Samples.env
         (lit "We are happy to share a few notes today. More soon") Newsletter
         (analyzeSentiment (lit "We are happy")) 0)
  = lit "We are happy to share a few notes today...".
Proof.
  assert (H : 8 <= length (filter (fun u => N.eqb u 32)
                             (lit "We are happy to share a few notes today. More soon")))
    by (vm_compute; lia).
  exact (proj1 (proj1 (proj2 (@optimized_subject Samples.env
                                (lit "We are happy to share a few notes today. More soon")
                                (analyzeSentiment (lit "We are happy")) 0)) H)).
Defined.

(** *** The optimized variants in the result *)

Lemma adaptLinkedIn_has_question (t : jsstring) :
  includes (adaptLinkedIn t) (lit "?") = true.
Proof. unfold adaptLinkedIn. apply IncludesFacts.includes_app_r. reflexivity. Qed.

Lemma adaptLinkedIn_has_comment (t : jsstring) :
  includes (adaptLinkedIn t) (lit "comment") = true.
Proof. unfold adaptLinkedIn. apply IncludesFacts.includes_app_r. reflexivity. Qed.

Lemma optimize_adapted_linkedin (env : Env) (t : jsstring) (sentiment : Sentiment)
    (i : nat) :
  RouteV2.optimizeContentForEngagement env (adaptLinkedIn t) LinkedIn sentiment i
  = (adaptLinkedIn t, i).
Proof.
  unfold RouteV2.optimizeContentForEngagement.
  rewrite adaptLinkedIn_has_question. cbn [negb andb].
  rewrite adaptLinkedIn_has_comment. cbn [negb]. now rewrite andb_false_r.
Qed.

Lemma process_optimized (env : Env) (content : jsstring) (audience tone : option jsstring) :
  sv_optimized_content
    (twitter (RouteV2.platforms (RouteV2.process env content audience tone)))
  = Some (fst (RouteV2.optimizeContentForEngagement env
                 (adaptForPlatform content Twitter audience tone) Twitter
                 (analyzeSentiment content) 6))
  /\ sv_optimized_content
       (linkedin (RouteV2.platforms (RouteV2.process env content audience tone)))
     = Some (adaptForPlatform content LinkedIn audience tone)
  /\ nv_optimized_subject
       (newsletter (RouteV2.platforms (RouteV2.process env content audience tone)))
     = Some (fst (RouteV2.optimizeContentForEngagement env content Newsletter
                    (analyzeSentiment content) 0)).
Proof.
  unfold RouteV2.process.
  set (s := analyzeSentiment content).
  destruct (RouteV2.predictEngagement env content Twitter s 0) as [f1 i1] eqn:E1.
  assert (H1 := HandlerFacts.predictEngagement_draws env content Twitter s 0).
  rewrite E1 in H1. cbn in H1. subst i1.
  destruct (RouteV2.predictEngagement env content LinkedIn s 3) as [f2 i2] eqn:E2.
  assert (H2 := HandlerFacts.predictEngagement_draws env content LinkedIn s 3).
  rewrite E2 in H2. cbn in H2. subst i2.
  destruct (RouteV2.predictEngagement env content Newsletter s 6) as [f3 i3] eqn:E3.
  assert (H3 := HandlerFacts.predictEngagement_draws env content Newsletter s 6).
  rewrite E3 in H3. cbn in H3. subst i3.
  destruct (RouteV2.optimizeContentForEngagement env
              (adaptForPlatform content Twitter audience tone) Twitter s 6) as [o1 j1].
  cbn [adaptForPlatform]. rewrite optimize_adapted_linkedin.
  assert (E : forall j, fst (RouteV2.optimizeContentForEngagement env content Newsletter s j)
                        = fst (RouteV2.optimizeContentForEngagement env content Newsletter s 0)).
  { intros j. unfold RouteV2.optimizeContentForEngagement.
    cbn [RouteV2.is_newsletter negb]. rewrite andb_false_r. reflexivity. }
  rewrite <- (E j1).
  destruct (RouteV2.optimizeContentForEngagement env content Newsletter s j1) as [o3 j3].
  cbn [fst]. repeat split.
Qed.

(** X7: In the result of the extended handler the optimized professional variant
    is always the adapted professional text itself: the adapter's closing
    question already has the question mark and the word the optimisation
    looks for. *)
Theorem optimized_linkedin_is_adapted (env : Env) (content : jsstring)
    (audience tone : option jsstring) :
  sv_optimized_content
    (linkedin (RouteV2.platforms (RouteV2.process env content audience tone)))
  = Some (sv_content
            (linkedin (RouteV2.platforms (RouteV2.process env content audience tone)))).
Proof.
  rewrite (proj1 (proj2 (process_optimized env content audience tone))).
  f_equal. symmetry. apply (HandlerFacts.process_adapted env content audience tone LinkedIn).
Qed.

(** X8: The character counts of the result are the lengths of the adapted texts,
    in both revisions, and the short-form count is at most 243. *)
Theorem character_counts (env : Env) (content : jsstring) (audience tone : option jsstring) :
  let r1 := RouteV1.process env content audience tone in
  let r2 := RouteV2.process env content audience tone in
  sv_character_count (twitter (RouteV1.platforms r1))
  = length (sv_content (twitter (RouteV1.platforms r1)))
  /\ sv_character_count (linkedin (RouteV1.platforms r1))
     = length (sv_content (linkedin (RouteV1.platforms r1)))
  /\ sv_character_count (twitter (RouteV2.platforms r2))
     = length (sv_content (twitter (RouteV2.platforms r2)))
  /\ sv_character_count (linkedin (RouteV2.platforms r2))
     = length (sv_content (linkedin (RouteV2.platforms r2)))
  /\ sv_character_count (twitter (RouteV1.platforms r1)) <= 243
  /\ sv_character_count (twitter (RouteV2.platforms r2)) <= 243.
Proof.
  assert (Hlen := AdapterFacts.adaptTwitter_length (applyTone tone content)).
  rewrite AdapterFacts.ellipsis_length in Hlen.
  cbn zeta. unfold RouteV2.process. HandlerFacts.split_pairs.
  cbn [RouteV1.process RouteV1.platforms RouteV2.platforms twitter linkedin
       sv_character_count sv_content adaptForPlatform].
  repeat split; exact Hlen.
Qed.

End OptimizeFacts.

(** ** More on the two hashtag strategies *)

Module TagFacts.

Import JS Pipeline.

Lemma set_add_In (seen : list jsstring) (a x : jsstring) :
  In x seen \/ x = a -> In x (set_add seen a).
Proof.
  unfold set_add. destruct (arr_includes seen a) eqn:E.
  - intros [H | ->]; [assumption | now apply JSFacts.arr_includes_In].
  - intros [H | ->]; apply in_or_app; [now left | right; now left].
Qed.

Lemma fold_set_add_In (l seen : list jsstring) (x : jsstring) :
  In x seen \/ In x l -> In x (fold_left set_add l seen).
Proof.
  revert seen; induction l as [|a l IH]; intros seen; cbn [fold_left In].
  - intros [H | []]; assumption.
  - intros [H | [-> | H]]; apply IH; auto using set_add_In.
Qed.

Lemma fold_set_add_prefix (l seen : list jsstring) :
  exists rest, fold_left set_add l seen = seen ++ rest.
Proof.
  revert seen; induction l as [|a l IH]; intros seen; cbn [fold_left].
  - exists []. now rewrite app_nil_r.
  - destruct (IH (set_add seen a)) as [rest ->]. unfold set_add.
    destruct (arr_includes seen a); [now exists rest|].
    exists (a :: rest). now rewrite <- app_assoc.
Qed.

Lemma fold_set_add_fresh (l seen : list jsstring) :
  NoDup (seen ++ l) -> fold_left set_add l seen = seen ++ l.
Proof.
  revert seen; induction l as [|a l IH]; intros seen Hnd; cbn [fold_left].
  - now rewrite app_nil_r.
  - assert (Ha : arr_includes seen a = false).
    { destruct (arr_includes seen a) eqn:E; [|reflexivity].
      apply JSFacts.arr_includes_In in E. apply NoDup_remove_2 in Hnd.
      exfalso. apply Hnd, in_or_app. now left. }
    unfold set_add. rewrite Ha, IH; rewrite <- app_assoc; [reflexivity | exact Hnd].
Qed.

(** A list that [new Set] leaves as it is has no repetition. *)
Lemma set_of_fixed_NoDup (l : list jsstring) : set_of l = l -> NoDup l.
Proof. intros E. rewrite <- E. apply JSFacts.set_of_NoDup. Qed.

Lemma trendingHashtags_NoDup (platform : Platform) :
  NoDup (RouteV2.trendingHashtags platform).
Proof. apply set_of_fixed_NoDup. destruct platform; vm_compute; reflexivity. Qed.

Lemma contentBasedTags_NoDup (words : list jsstring) :
  NoDup (RouteV2.contentBasedTags words).
Proof.
  apply set_of_fixed_NoDup. unfold RouteV2.contentBasedTags, push_if.
  do 3 destruct (RouteV2.some_in _ words); vm_compute; reflexivity.
Qed.

Lemma set_of_content_first (tags rest : list jsstring) :
  NoDup tags -> exists more, set_of (tags ++ rest) = tags ++ more.
Proof.
  intros Hnd. unfold set_of. rewrite fold_left_app.
  change (fold_left set_add tags []) with (set_of tags).
  assert (E : set_of tags = tags).
  { unfold set_of. now rewrite fold_set_add_fresh. }
  rewrite E. apply fold_set_add_prefix.
Qed.

(** X9: The optimized strategy returns exactly five tags on the two social
    channels; on the digest channel, which has no trending tags, it returns
    the first five content-based tags (none, three or five).  On every
    channel the content-based tags come first. *)
Theorem optimized_tag_count (content : jsstring) (platform : Platform) :
  match platform with
  | Newsletter =>
      RouteV2.generateOptimizedHashtags content Newsletter
      = firstn 5 (RouteV2.contentBasedTags (long_words content))
  | _ => length (RouteV2.generateOptimizedHashtags content platform) = 5
  end
  /\ firstn (length (RouteV2.contentBasedTags (long_words content)))
       (RouteV2.generateOptimizedHashtags content platform)
     = firstn 5 (RouteV2.contentBasedTags (long_words content)).
Proof.
  unfold RouteV2.generateOptimizedHashtags. rewrite JSFacts.slice0_5.
  set (tags := RouteV2.contentBasedTags (long_words content)).
  assert (Hnd : NoDup tags) by apply contentBasedTags_NoDup.
  split.
  - assert (Hfive : platform <> Newsletter ->
                    length (firstn 5 (set_of (tags ++ RouteV2.trendingHashtags platform))) = 5).
    { intros Hp. rewrite length_firstn.
      assert (Hlen : length (RouteV2.trendingHashtags platform) = 8)
        by (destruct platform; [reflexivity | reflexivity | congruence]).
      assert (Hle : length (RouteV2.trendingHashtags platform)
                    <= length (set_of (tags ++ RouteV2.trendingHashtags platform))).
      { apply NoDup_incl_length; [apply trendingHashtags_NoDup|].
        intros x Hx. apply fold_set_add_In. right. apply in_or_app. now right. }
      lia. }
    destruct platform; try (apply Hfive; discriminate).
    cbn [RouteV2.trendingHashtags]. rewrite app_nil_r.
    unfold set_of. rewrite fold_set_add_fresh; [reflexivity | exact Hnd].
  - destruct (set_of_content_first (RouteV2.trendingHashtags platform) Hnd) as [more ->].
    rewrite firstn_firstn.
    destruct (Nat.le_gt_cases (length tags) 5) as [H|H].
    + rewrite Nat.min_l by exact H. rewrite firstn_app, Nat.sub_diag, firstn_O, app_nil_r.
      rewrite !firstn_all2; [reflexivity | lia | lia].
    + rewrite Nat.min_r by lia. rewrite firstn_app.
      replace (5 - length tags) with 0 by lia. now rewrite firstn_O, app_nil_r.
Qed.

(** *** Triggers shorter than four units *)

Lemma long_words_are_long (content w : jsstring) :
  In w (long_words content) -> 3 < length w.
Proof.
  unfold long_words. intros H. apply filter_In in H as [_ H].
  now apply Nat.ltb_lt in H.
Qed.

Lemma short_word_absent (content w : jsstring) :
  length w <= 3 -> arr_includes (long_words content) w = false.
Proof.
  intros Hw. destruct (arr_includes (long_words content) w) eqn:E; [|reflexivity].
  apply JSFacts.arr_includes_In, long_words_are_long in E. lia.
Qed.

Lemma In_push_if (b : bool) (items l : list jsstring) (x : jsstring) :
  In x (push_if b items l) <-> In x l \/ (b = true /\ In x items).
Proof.
  unfold push_if. destruct b.
  - rewrite in_app_iff. tauto.
  - split; [now left | intros [H | [H _]]; [assumption | discriminate]].
Qed.

Lemma some_in_short (cluster words : list jsstring) (w : jsstring) :
  (forall x, In x words -> str_eqb w x = false) ->
  RouteV2.some_in (w :: cluster) words = RouteV2.some_in cluster words.
Proof.
  intros Hw. unfold RouteV2.some_in.
  induction words as [|x words IH]; [reflexivity|].
  cbn [existsb]. rewrite IH by (intros y Hy; apply Hw; now right).
  f_equal. unfold arr_includes. cbn [existsb].
  assert (E : str_eqb x w = false).
  { destruct (str_eqb x w) eqn:E; [|reflexivity].
    apply JSFacts.str_eqb_eq in E. subst x.
    assert (Ht : str_eqb w w = true) by now apply JSFacts.str_eqb_eq.
    rewrite (Hw w (or_introl eq_refl)) in Ht. discriminate Ht. }
  now rewrite E.
Qed.

(** X10: The trigger [ai] never fires, in either strategy: tokens of fewer than
    four units are dropped before the keyword tests.  The baseline gives the
    content-based tag [#ai] exactly for the token [artificial], and the AI
    cluster of the optimized strategy is decided by its four longer words. *)
Theorem ai_trigger_is_dead (content : jsstring) :
  arr_includes (long_words content) (lit "ai") = false
  /\ (In (lit "#ai") (contentTags (long_words content))
      <-> arr_includes (long_words content) (lit "artificial") = true)
  /\ RouteV2.some_in (map lit ["ai"; "artificial"; "intelligence"; "machine"; "learning"]%string)
       (long_words content)
     = RouteV2.some_in (map lit ["artificial"; "intelligence"; "machine"; "learning"]%string)
         (long_words content).
Proof.
  assert (Hai : arr_includes (long_words content) (lit "ai") = false)
    by (apply short_word_absent; vm_compute; lia).
  split; [exact Hai|]. split.
  - unfold contentTags. rewrite !In_push_if, Hai. cbn [In orb].
    split.
    + intros [[[[[] | [_ [H | []]]] | [_ [H | []]]] | [_ [H | []]]] | [Hb _]];
        try (vm_compute in H; discriminate H). exact Hb.
    + intros Hb. right. split; [exact Hb | now left].
  - apply some_in_short. intros x Hx.
    destruct (str_eqb (lit "ai") x) eqn:E; [|reflexivity].
    apply JSFacts.str_eqb_eq in E. subst x.
    apply long_words_are_long in Hx. vm_compute in Hx. lia.
Qed.

(** *** The size of the baseline list *)

Lemma contentTags_length (words : list jsstring) : length (contentTags words) <= 4.
Proof.
  unfold contentTags, push_if.
  destruct (_ || _)%bool; destruct (arr_includes words (lit "business"));
    destruct (arr_includes words (lit "innovation")); destruct (_ || _)%bool;
    cbn [length app]; lia.
Qed.

(** X11: The baseline strategy on a social channel returns three tags, unless all
    four keyword tests fire: then it returns the four content-based tags and
    the first channel tag.  On the digest channel it returns the content-based
    tags alone. *)
Theorem baseline_tag_count (content : jsstring) (platform : Platform) :
  match platform with
  | Newsletter => extractHashtags content Newsletter = contentTags (long_words content)
  | _ =>
      if length (contentTags (long_words content)) =? 4
      then extractHashtags content platform
           = contentTags (long_words content) ++ firstn 1 (commonHashtags platform)
      else length (extractHashtags content platform) = 3
  end.
Proof.
  assert (Hk := contentTags_length (long_words content)).
  unfold extractHashtags. rewrite !JSFacts.slice0_5.
  set (tags := contentTags (long_words content)) in *.
  assert (Hsocial : platform <> Newsletter ->
    if length tags =? 4
    then firstn 5 (tags ++ slice0 (3 - Z.of_nat (length tags)) (commonHashtags platform))
         = tags ++ firstn 1 (commonHashtags platform)
    else length (firstn 5 (tags ++ slice0 (3 - Z.of_nat (length tags))
                                     (commonHashtags platform))) = 3).
  { intros Hp. assert (H6 := HashtagFacts.channel_tags_length Hp).
    destruct (Nat.eqb_spec (length tags) 4) as [E|E].
    - replace (3 - Z.of_nat (length tags))%Z with (-1)%Z by lia.
      unfold slice0. change (-1 <? 0)%Z with true. cbn iota. rewrite H6.
      change (Z.to_nat (Z.of_nat 6 + -1)) with 5.
      rewrite firstn_app, E. change (5 - 4) with 1.
      rewrite firstn_all2 by lia. f_equal. now rewrite firstn_firstn.
    - replace (3 - Z.of_nat (length tags))%Z with (Z.of_nat (3 - length tags)) by lia.
      rewrite JSFacts.slice0_nonneg, length_firstn, length_app, length_firstn, H6. lia. }
  destruct platform; try (apply Hsocial; discriminate).
  cbn [commonHashtags].
  assert (E : forall e, slice0 e (@nil jsstring) = [])
    by (intros e; unfold slice0; destruct (e <? 0)%Z; apply firstn_nil).
  rewrite E, app_nil_r. apply firstn_all2. lia.
Qed.

End TagFacts.

(** ** More on readability *)

Module ReadabilityEdgeFacts.

Import JS Pipeline.

Lemma split_runs_Forall (P : N -> Prop) (sep : N -> bool) (s : jsstring) :
  Forall P s -> Forall (Forall P) (split_runs sep s).
Proof.
  induction 1 as [|c r Hc Hr IH]; cbn [split_runs]; [repeat constructor|].
  destruct (sep c).
  - destruct r as [|c' r']; [repeat constructor|].
    destruct (sep c'); [exact IH | now constructor].
  - destruct (split_runs sep r) as [|piece rest]; [repeat constructor; assumption|].
    inversion IH; subst. constructor; [now constructor | assumption].
Qed.

Lemma filter_none (A : Type) (f : A -> bool) (l : list A) :
  Forall (fun x => f x = false) l -> filter f l = [].
Proof. induction 1 as [|x l Hx _ IH]; cbn [filter]; [reflexivity|]. now rewrite Hx. Qed.

(** X12: A text made of white space and sentence punctuation only ([.], [!],
    [?]) has no sentence and scores the default 50, however long it is. *)
Theorem readability_without_words (text : jsstring) :
  Forall (fun u => (is_space u || is_sentence_end u)%bool = true) text ->
  sentence_count text = 0 /\ calculateReadability text = 50%Z.
Proof.
  intros H.
  assert (Hs : sentence_count text = 0).
  { unfold sentence_count. rewrite filter_none; [reflexivity|].
    assert (H1 := split_runs_Forall is_sentence_end H).
    assert (H2 := JSFacts.split_runs_pieces is_sentence_end text).
    rewrite Forall_forall in *. intros piece Hp.
    apply negb_false_iff, JSFacts.is_blank_iff. rewrite Forall_forall.
    intros u Hu. specialize (H1 piece Hp). specialize (H2 piece Hp).
    rewrite Forall_forall in H1, H2. specialize (H1 u Hu). specialize (H2 u Hu).
    rewrite H2, orb_false_r in H1. exact H1. }
  split; [exact Hs|]. unfold calculateReadability. now rewrite Hs.
Qed.

Lemma readability_without_words_witness :
  calculateReadability (lit " ...  ?! ") = 50%Z.
Proof.
  assert (H : Forall (fun u => (is_space u || is_sentence_end u)%bool = true)
                (lit " ...  ?! ")) by (repeat constructor).
  exact (proj2 (readability_without_words H)).
Defined.

End ReadabilityEdgeFacts.

(** ** More on the channel adapter *)

Module ToneFacts.

Import JS Pipeline Tests.

Lemma calm_app (s t : jsstring) : calm (s ++ t) = (calm s && calm t)%bool.
Proof. apply forallb_app. Qed.

Lemma calm_firstn (n : nat) (s : jsstring) : calm s = true -> calm (firstn n s) = true.
Proof.
  revert n; induction s as [|c s IH]; intros [|n]; cbn [firstn calm forallb]; auto.
  intros H. apply andb_true_iff in H as [Hc Hs]. rewrite Hc. now apply IH.
Qed.

Lemma calm_includes (s : jsstring) : calm s = true <-> includes s (lit "!") = false.
Proof.
  change (lit "!") with [33%N]. rewrite IncludesFacts.includes_unit_false.
  unfold calm. rewrite forallb_forall. split.
  - intros H Hin. specialize (H _ Hin). now rewrite N.eqb_refl in H.
  - intros H u Hu. destruct (N.eqb_spec u 33); [subst; contradiction | reflexivity].
Qed.

Lemma calm_replace_unit (s : jsstring) : calm (replace_unit 33 46 s) = true.
Proof.
  induction s as [|c s IH]; [reflexivity|].
  cbn [replace_unit map calm forallb]. fold (replace_unit 33 46 s). fold (calm (replace_unit 33 46 s)).
  rewrite IH. destruct (N.eqb_spec c 33) as [->|Hc]; [reflexivity|].
  destruct (N.eqb_spec c 33); [contradiction | reflexivity].
Qed.

Lemma calm_replace_words (alts : list jsstring) (repl : jsstring) (s : jsstring) :
  calm repl = true -> calm s = true ->
  forall prev skip, calm (replace_words alts repl prev skip s) = true.
Proof.
  intros Hr. induction s as [|c s IH]; intros Hs prev skip; [reflexivity|].
  cbn [calm forallb] in Hs. apply andb_true_iff in Hs as [Hc Hs].
  cbn [replace_words]. destruct skip as [|k]; [|now apply IH].
  destruct (first_alt alts prev (c :: s)).
  - rewrite calm_app, Hr. now apply IH.
  - cbn [calm forallb]. rewrite Hc. now apply IH.
Qed.

Lemma calm_lower (s : jsstring) : calm s = true -> calm (toLowerCase s) = true.
Proof.
  induction s as [|c s IH]; [reflexivity|].
  cbn [calm forallb]. intros H. apply andb_true_iff in H as [Hc Hs].
  unfold toLowerCase. cbn [flat_map]. fold (toLowerCase s).
  rewrite calm_app, (IH Hs), andb_true_r.
  unfold lower_unit, between.
  repeat match goal with
         | |- context [N.leb ?a ?b] => destruct (N.leb_spec a b)
         | |- context [N.eqb ?a ?b] => destruct (N.eqb_spec a b)
         end; cbn [andb negb calm forallb]; try reflexivity;
    repeat match goal with
           | |- context [N.eqb ?a ?b] => destruct (N.eqb_spec a b)
           end; try reflexivity; try lia; try discriminate.
Qed.

Lemma lower_nonempty (t : jsstring) : toLowerCase t <> [] -> t <> [].
Proof. intros H E. now subst t. Qed.

Lemma applyTone_professional (t content : jsstring) :
  toLowerCase t = lit "professional" ->
  applyTone (Some t) content
  = replace_words (map lit ["awesome"; "amazing"; "cool"]%string) (lit "excellent")
      None 0 (replace_unit 33 46 content).
Proof.
  intros H. destruct t as [|u t']; [discriminate H|].
  unfold applyTone. rewrite H. reflexivity.
Qed.

Lemma applyTone_enthusiastic (t content : jsstring) :
  toLowerCase t = lit "enthusiastic" ->
  applyTone (Some t) content
  = if negb (includes content (lit "!")) then replace_final 46 33 content else content.
Proof.
  intros H. destruct t as [|u t']; [discriminate H|].
  unfold applyTone. rewrite H. reflexivity.
Qed.

(** X13: With the professional tone, whatever the case of its letters, no adapted
    variant contains an exclamation mark, on any channel. *)
Theorem professional_tone_is_calm (content t : jsstring) (platform : Platform)
    (audience : option jsstring) :
  toLowerCase t = lit "professional" ->
  includes (adaptForPlatform content platform audience (Some t)) (lit "!") = false.
Proof.
  intros H. apply calm_includes. unfold adaptForPlatform.
  rewrite (@applyTone_professional t content H).
  set (a := replace_words _ _ _ _ _).
  assert (Ha : calm a = true).
  { apply calm_replace_words; [reflexivity | apply calm_replace_unit]. }
  destruct platform.
  - unfold adaptTwitter, substring0.
    destruct (240 <? length a).
    + destruct (_ <? 200); rewrite ?calm_app, (calm_firstn 240 _ Ha); reflexivity.
    + destruct (_ <? 200); rewrite ?calm_app, Ha; reflexivity.
  - unfold adaptLinkedIn.
    destruct (_ && _)%bool; rewrite ?calm_app, ?(calm_lower _ Ha), ?Ha; reflexivity.
  - unfold adaptNewsletter. rewrite !calm_app, Ha. reflexivity.
Qed.

Lemma professional_tone_is_calm_witness :
  includes (adaptForPlatform (lit "Wow! This is cool!") Twitter None
              (Some (lit "Professional"))) (lit "!") = false.
Proof.
  apply (@professional_tone_is_calm (lit "Wow! This is cool!") (lit "Professional")
           Twitter None).
  reflexivity.
Defined.

Lemma replace_final_length (a b : N) (s : jsstring) :
  length (replace_final a b s) = length s.
Proof.
  induction s as [|c r IH]; [reflexivity|].
  destruct r as [|c' r'].
  - cbn [replace_final]. destruct (N.eqb c a); reflexivity.
  - change (replace_final a b (c :: c' :: r')) with (c :: replace_final a b (c' :: r')).
    cbn [length]. now rewrite IH.
Qed.

Lemma replace_final_snoc (a b : N) (s : jsstring) :
  replace_final a b (s ++ [a]) = s ++ [b].
Proof.
  induction s as [|c r IH].
  - cbn [app replace_final]. now rewrite N.eqb_refl.
  - cbn [app]. destruct (r ++ [a]) as [|x y] eqn:E; [now destruct r|].
    change (replace_final a b (c :: x :: y)) with (c :: replace_final a b (x :: y)).
    now rewrite IH.
Qed.

(** X14: The enthusiastic tone never changes the length of the text: a text that
    ends with a full stop and has no exclamation mark gets the full stop
    replaced by an exclamation mark, and a text that already has an
    exclamation mark is left as it is. *)
Theorem enthusiastic_tone (content t : jsstring) :
  toLowerCase t = lit "enthusiastic" ->
  length (applyTone (Some t) content) = length content
  /\ (forall body, content = body ++ lit "." -> calm body = true ->
                   applyTone (Some t) content = body ++ lit "!")
  /\ (includes content (lit "!") = true -> applyTone (Some t) content = content).
Proof.
  intros H. rewrite (@applyTone_enthusiastic t content H). repeat split.
  - destruct (negb _); [apply replace_final_length | reflexivity].
  - intros body -> Hb.
    assert (Hc : calm (body ++ lit ".") = true) by (rewrite calm_app, Hb; reflexivity).
    apply calm_includes in Hc. rewrite Hc. cbn [negb].
    apply (replace_final_snoc 46 33).
  - intros Hi. now rewrite Hi.
Qed.

Lemma enthusiastic_tone_witness :
  applyTone (Some (lit "ENTHUSIASTIC")) (lit "We ship today.") = lit "We ship today!".
Proof.
  assert (H : toLowerCase (lit "ENTHUSIASTIC") = lit "enthusiastic") by reflexivity.
  exact (proj1 (proj2 (@enthusiastic_tone (lit "We ship today.") (lit "ENTHUSIASTIC") H))
           (lit "We ship today") eq_refl eq_refl).
Defined.

(** X15: The professional variant always ends with the closing question, so it
    always has a question mark, and it always mentions [business] or
    [professional]: the framing clause is put in front when the tone-adjusted
    text has neither word. *)
Theorem professional_variant_frame (content : jsstring) (audience tone : option jsstring) :
  (exists body,
      adaptForPlatform content LinkedIn audience tone
      = body ++ nl ++ nl
          ++ lit "What has been your experience with this? Share your thoughts in the comments.")
  /\ includes (adaptForPlatform content LinkedIn audience tone) (lit "?") = true
  /\ (includes (adaptForPlatform content LinkedIn audience tone) (lit "business")
      || includes (adaptForPlatform content LinkedIn audience tone) (lit "professional"))%bool
     = true.
Proof.
  cbn [adaptForPlatform]. set (a := applyTone tone content).
  split; [|split].
  - unfold adaptLinkedIn. eexists. reflexivity.
  - apply OptimizeFacts.adaptLinkedIn_has_question.
  - unfold adaptLinkedIn.
    destruct (includes a (lit "professional")) eqn:Ep;
      destruct (includes a (lit "business")) eqn:Eb; cbn [negb andb].
    + rewrite (@IncludesFacts.includes_app_l a _ _ Eb). reflexivity.
    + rewrite (@IncludesFacts.includes_app_l a _ _ Ep). apply orb_true_r.
    + rewrite (@IncludesFacts.includes_app_l a _ _ Eb). reflexivity.
    + apply orb_true_iff. left.
      apply IncludesFacts.includes_app_l, IncludesFacts.includes_app_l. reflexivity.
Qed.

End ToneFacts.

(** ** Letter case *)

Module CaseFacts.

Import JS Pipeline Tests.

Lemma lower_unit_fold (c : N) : lower_unit (fold_ascii c) = lower_unit c.
Proof.
  unfold fold_ascii. destruct (between 65 90 c) eqn:E; [|reflexivity].
  unfold lower_unit. rewrite E. unfold between in *.
  apply andb_true_iff in E as [E1 E2]. apply N.leb_le in E1, E2.
  repeat match goal with
         | |- context [N.leb ?a ?b] => destruct (N.leb_spec a b)
         | |- context [N.eqb ?a ?b] => destruct (N.eqb_spec a b)
         end; cbn [andb negb]; try reflexivity; lia.
Qed.

Lemma toLowerCase_fold (s : jsstring) : toLowerCase (map fold_ascii s) = toLowerCase s.
Proof.
  unfold toLowerCase. induction s as [|c s IH]; [reflexivity|].
  cbn [map flat_map]. now rewrite lower_unit_fold, IH.
Qed.

Lemma same_case_lower (s t : jsstring) :
  same_up_to_case s t -> toLowerCase s = toLowerCase t.
Proof.
  intros H. rewrite <- (toLowerCase_fold s), <- (toLowerCase_fold t). now rewrite H.
Qed.

(** X16: Two texts that differ only in the case of ASCII letters get the same
    sentiment and the same tags under both strategies. *)
Theorem analysis_ignores_case (s t : jsstring) (platform : Platform) :
  same_up_to_case s t ->
  analyzeSentiment s = analyzeSentiment t
  /\ extractHashtags s platform = extractHashtags t platform
  /\ RouteV2.generateOptimizedHashtags s platform
     = RouteV2.generateOptimizedHashtags t platform.
Proof.
  intros H. apply same_case_lower in H.
  unfold analyzeSentiment, extractHashtags, RouteV2.generateOptimizedHashtags,
    long_words, tokens.
  now rewrite H.
Qed.

Lemma analysis_ignores_case_witness :
  analyzeSentiment (lit "A GREAT Day for Business")
  = analyzeSentiment (lit "a great day for business").
Proof.
  apply (@analysis_ignores_case (lit "A GREAT Day for Business")
           (lit "a great day for business") Twitter).
  reflexivity.
Defined.

End CaseFacts.

(** ** Suggestions *)

Module SuggestionFacts.

Import JS Pipeline Spec.

Lemma Qltb_false (a b : Q) : (b <= a)%Q -> RouteV2.Qltb a b = false.
Proof.
  intros H. unfold RouteV2.Qltb. apply negb_false_iff. now apply Qle_bool_iff.
Qed.

(** X17: The tone suggestions the handler gives follow the lexicon hits of the
    text: both suggestions when the text has no hit, only the one about
    emotional language when positive and negative hits tie, none when one
    side wins.  The suggestion to clarify the tone never comes alone. *)
Theorem tone_suggestions (content : jsstring) (platforms : jsstring * jsstring * jsstring) :
  RouteV2.tone_adjustments
    (RouteV2.generateOptimizationSuggestions content (analyzeSentiment content) platforms)
  = if hits positiveWords (tokens content) + hits negativeWords (tokens content) =? 0
    then [lit "Consider adding more emotional language to increase engagement";
          lit "Clarify the tone to make the message more impactful"]
    else if hits positiveWords (tokens content) =? hits negativeWords (tokens content)
         then [lit "Consider adding more emotional language to increase engagement"]
         else [].
Proof.
  rewrite SentimentFacts.analyzeSentiment_four_case.
  set (p := hits positiveWords (tokens content)).
  set (n := hits negativeWords (tokens content)).
  assert (Hc := SentimentFacts.four_case_confidence p n).
  unfold RouteV2.generateOptimizationSuggestions. cbn [RouteV2.tone_adjustments].
  revert Hc. unfold four_case.
  destruct (Nat.eqb_spec (p + n) 0) as [H0|H0]; [reflexivity|].
  destruct (Nat.ltb_spec n p) as [Hp|Hp]; cbn [label confidence].
  - intros [Hlo _]. rewrite Qltb_false by lra.
    destruct (Nat.eqb_spec p n); [lia | reflexivity].
  - destruct (Nat.ltb_spec p n) as [Hn|Hn]; cbn [label confidence].
    + intros [Hlo _]. rewrite Qltb_false by lra.
      destruct (Nat.eqb_spec p n); [lia | reflexivity].
    + intros _. destruct (Nat.eqb_spec p n); [reflexivity | lia].
Qed.

End SuggestionFacts.

(** ** Emoji *)

Module EmojiFacts.

Import JS Pipeline.

Lemma hasEmojis_found (a b : jsstring) (h l : N) :
  is_high h = true -> is_low l = true -> RouteV2.emoji_point (code_point h l) = true ->
  RouteV2.hasEmojis (a ++ h :: l :: b) = true.
Proof.
  intros Hh Hl Hp. induction a as [|c a IH]; cbn [app RouteV2.hasEmojis].
  - now rewrite Hh, Hl, Hp.
  - rewrite IH. apply orb_true_r.
Qed.

(** X18: The emoji test sees astral code points only: a text without a high
    surrogate unit never gets the emoji bonus (so the symbols of the Basic
    Multilingual Plane do not count), and a surrogate pair in one of the four
    ranges is found wherever it stands. *)
Theorem emoji_needs_surrogates (content : jsstring) :
  (Forall (fun u => is_high u = false) content -> RouteV2.hasEmojis content = false)
  /\ (forall a b h l,
         content = a ++ h :: l :: b ->
         is_high h = true -> is_low l = true ->
         RouteV2.emoji_point (code_point h l) = true ->
         RouteV2.hasEmojis content = true).
Proof.
  split.
  - induction 1 as [|c r Hc _ IH]; [reflexivity|].
    cbn [RouteV2.hasEmojis]. rewrite IH, Hc. destruct r; reflexivity.
  - intros a b h l -> Hh Hl Hp. now apply hasEmojis_found.
Qed.

Lemma emoji_needs_surrogates_witness :
  RouteV2.hasEmojis (lit "I " ++ [10084%N] ++ lit " this") = false
  /\ RouteV2.hasEmojis (lit "Launch " ++ [55357%N; 56960%N] ++ lit " today") = true.
Proof.
  split.
  - apply (proj1 (emoji_needs_surrogates (lit "I " ++ [10084%N] ++ lit " this"))).
    repeat constructor.
  - apply (proj2 (emoji_needs_surrogates
                    (lit "Launch " ++ [55357%N; 56960%N] ++ lit " today"))
             (lit "Launch ") (lit " today") 55357%N 56960%N); reflexivity.
Defined.

End EmojiFacts.

(** ** Outcomes of the handler and the form in front of it *)

Module OutcomeFacts.

Import JS Pipeline Spec.

Lemma process_original (env : Env) (content : jsstring) (audience tone : option jsstring) :
  RouteV2.original_content (RouteV2.process env content audience tone) = content.
Proof. unfold RouteV2.process. HandlerFacts.split_pairs. reflexivity. Qed.



(** X20: The form sends nothing exactly when the typed text is white space only;
    whatever it sends, both revisions of the handler accept, and the result
    echoes the typed text.  An untouched tone field travels as the empty
    string and gives the same answer as a body without tone and audience. *)
Theorem form_requests_are_accepted (env : Env) (content targetAudience tone : jsstring) :
  (Client.handleProcess content targetAudience tone = None
   <-> Forall (fun u => is_space u = true) content)
  /\ (forall body,
         Client.handleProcess content targetAudience tone = Some body ->
         exists r1 r2,
           RouteV1.POST env (Some body) = Ok r1
           /\ RouteV2.POST env (Some body) = Ok r2
           /\ RouteV1.original_content r1 = content
           /\ RouteV2.original_content r2 = content)
  /\ (forall body,
         Client.handleProcess content targetAudience [] = Some body ->
         RouteV2.POST env (Some body)
         = RouteV2.POST env (Some {| Pipeline.content := Some content;
                                     target_audience := None;
                                     Pipeline.tone := None |})).
Proof.
  unfold Client.handleProcess.
  assert (Hb : forall t a,
             is_blank content = false ->
             validated {| Pipeline.content := Some content; target_audience := a;
                          Pipeline.tone := t |} = Some content).
  { intros t a H. unfold validated. cbn [Pipeline.content].
    destruct content as [|u c']; [discriminate H | now rewrite H]. }
  fold (is_blank content).
  destruct (is_blank content) eqn:E.
  - split; [|split; intros body H; discriminate H].
    split; [intros _; now apply JSFacts.is_blank_iff | reflexivity].
  - split; [|split].
    + split; [discriminate|]. intros H. apply JSFacts.is_blank_iff in H. congruence.
    + intros body H. injection H as <-.
      unfold RouteV1.POST, RouteV2.POST, respond. rewrite (Hb _ _ eq_refl).
      do 2 eexists. split; [reflexivity|]. split; [reflexivity|].
      split; [reflexivity | apply process_original].
    + intros body H. injection H as <-.
      unfold RouteV2.POST, respond. rewrite !(Hb _ _ eq_refl). reflexivity.
Qed.

Lemma form_requests_are_accepted_witness :
  exists r1 r2,
    RouteV1.POST Samples.env
      (Some {| Pipeline.content := Some (lit "Hello"); target_audience := Some [];
               Pipeline.tone := Some [] |}) = Ok r1
    /\ RouteV2.POST Samples.env
         (Some {| Pipeline.content := Some (lit "Hello"); target_audience := Some [];
                  Pipeline.tone := Some [] |}) = Ok r2
    /\ RouteV1.original_content r1 = lit "Hello"
    /\ RouteV2.original_content r2 = lit "Hello".
Proof.
  apply (proj1 (proj2 (form_requests_are_accepted Samples.env (lit "Hello") [] []))).
  reflexivity.
Defined.

(** *** The subject line of a short plain text *)





End OutcomeFacts.

(** ** The optimized short-form variant of a short text *)

Module ShortFormFacts.

Import JS Pipeline.

(** X22: When the tone-adjusted text is shorter than 200 units, the optimized
    short-form variant of the result involves no draw: it is the adapted text
    (which ends with the prompt and so has its question mark), followed by
    [ #Innovation] unless the adapted text already has a hashtag marker. *)
Theorem short_text_optimized_without_draws (env : Env) (content : jsstring)
    (audience tone : option jsstring) :
  length (applyTone tone content) < 200 ->
  sv_optimized_content
    (twitter (RouteV2.platforms (RouteV2.process env content audience tone)))
  = Some (if includes (applyTone tone content ++ engagement_prompt) (lit "#")
          then applyTone tone content ++ engagement_prompt
          else (applyTone tone content ++ engagement_prompt) ++ lit " #Innovation").
Proof.
  intros Hlen. rewrite (proj1 (OptimizeFacts.process_optimized env content audience tone)).
  cbn [adaptForPlatform].
  rewrite (proj1 (proj2 (AdapterFacts.adaptTwitter_cases (applyTone tone content))) Hlen).
  set (a := applyTone tone content ++ engagement_prompt).
  assert (Hq : includes a (lit "?") = true)
    by (apply IncludesFacts.includes_app_r; reflexivity).
  unfold RouteV2.optimizeContentForEngagement. rewrite Hq. cbn [negb andb fst].
  destruct (includes a (lit "#")); reflexivity.
Qed.

Lemma short_text_optimized_without_draws_witness :
  sv_optimized_content
    (twitter (RouteV2.platforms (RouteV2.process Samples.env (lit "Hello") None None)))
  = Some (lit "Hello What do you think? #Innovation").
Proof.
  apply (@short_text_optimized_without_draws Samples.env (lit "Hello") None None).
  vm_compute. lia.
Defined.

End ShortFormFacts.
